(** * diray/api_client.py: the client of the Systeme de Calcul API

    A shallow embedding of [SystemeCalculClient] and of the three
    collaborators it talks to (the [requests] transport, Django's cache
    and the module logger), followed by the properties of its transport
    step [_make_request] and of its six domain operations. *)

From Stdlib Require Import ZArith String Ascii List Lia DecimalString.
From Stdlib Require Import PrimFloat.
From Stdlib Require Import DecimalPos DecimalZ.
From stdpp Require Import base option gmap strings.

Set Warnings "-register-all".

Local Open Scope string_scope.
Local Open Scope Z_scope.

(** ** Python values *)

Module Py.

(** A [string] stands for a Python [str], one [ascii] per character. *)

(** What [response.json()] can hand back, and what the operations
    build with dict literals: [None], booleans, integers, floats,
    strings, lists and dicts with string keys (in insertion order,
    keys unique). *)
Inductive json : Type :=
  | JNull
  | JBool (b : bool)
  | JInt (n : Z)
  | JFloat (f : float)
  | JStr (s : string)
  | JList (l : list json)
  | JDict (d : list (string * json)).

(** Truth value of an object: [bool(v)]. *)
Definition truthy (v : json) : bool :=
  match v with
  | JNull => false
  | JBool b => b
  | JInt n => negb (Z.eqb n 0)
  | JFloat f => negb (PrimFloat.eqb f 0%float)
  | JStr s => negb (String.eqb s "")
  | JList l => match l with [] => false | _ :: _ => true end
  | JDict d => match d with [] => false | _ :: _ => true end
  end.

(** [not x] for an attribute that is [None] or a string. *)
Definition truthy_str (o : option string) : bool :=
  match o with
  | None => false
  | Some s => negb (String.eqb s "")
  end.

(** [d.get(key, default)] on a dict. *)
Fixpoint dict_get (d : list (string * json)) (key : string) (default : json) : json :=
  match d with
  | [] => default
  | (k, v) :: rest => if String.eqb k key then v else dict_get rest key default
  end.

(** [key in d]. *)
Fixpoint dict_has (d : list (string * json)) (key : string) : bool :=
  match d with
  | [] => false
  | (k, _) :: rest => String.eqb k key || dict_has rest key
  end.

(** [s.lstrip('/')]: every leading slash goes. *)
Fixpoint lstrip_slash (s : string) : string :=
  match s with
  | EmptyString => EmptyString
  | String c rest => if Ascii.eqb c "/" then lstrip_slash rest else s
  end.

(** [s.rstrip('/')]: every trailing slash goes. *)
Fixpoint rstrip_slash (s : string) : string :=
  match s with
  | EmptyString => EmptyString
  | String c rest =>
      match rstrip_slash rest with
      | EmptyString => if Ascii.eqb c "/" then EmptyString else String c EmptyString
      | r => String c r
      end
  end.

(** [s[:n]]: the first [n] characters, or all of [s] when it is shorter. *)
Fixpoint str_prefix (n : nat) (s : string) : string :=
  match n, s with
  | S n', String c rest => String c (str_prefix n' rest)
  | _, _ => EmptyString
  end.

(** [s.upper()] on ASCII text (the method names passed in this module). *)
Definition upper_char (c : ascii) : ascii :=
  let n := nat_of_ascii c in
  if (Nat.leb 97 n && Nat.leb n 122) then ascii_of_nat (n - 32) else c.

Fixpoint upper (s : string) : string :=
  match s with
  | EmptyString => EmptyString
  | String c rest => String (upper_char c) (upper rest)
  end.

(** [str(n)] for an int, as an f-string renders it. *)
Definition str_of_int (n : Z) : string :=
  NilZero.string_of_int (Z.to_int n).

(** [s.startswith('/')] and [s.endswith('/')]. *)
Definition starts_with_slash (s : string) : bool :=
  match s with
  | EmptyString => false
  | String c _ => Ascii.eqb c "/"
  end.

Fixpoint ends_with_slash (s : string) : bool :=
  match s with
  | EmptyString => false
  | String c EmptyString => Ascii.eqb c "/"
  | String _ rest => ends_with_slash rest
  end.

(** A run of [n] slashes. *)
Fixpoint slashes (n : nat) : string :=
  match n with
  | O => EmptyString
  | S n' => String "/" (slashes n')
  end.

End Py.

Import Py.

(** ** The world the client runs in

    The client keeps no state of its own between calls.  What it reads
    and writes lives outside: the remote API behind [requests], the
    process-wide Django cache with its clock, and the logger. *)

Module requests.

(** The keyword arguments of [requests.request]. *)
Record Request : Type := {
  method : string;
  url : string;
  json : option Py.json;
  headers : list (string * string);
  params : option Py.json;
  timeout : Z
}.

(** A response as the client reads it: [response.status_code],
    [response.text], and [response.json()], which is [None] here when
    the call raises [ValueError]. *)
Record Response : Type := {
  status_code : Z;
  text : string;
  json_body : option Py.json
}.

(** [response.ok]: [raise_for_status()] does not raise, that is, the
    status is no 4xx and no 5xx. *)
Definition ok (r : Response) : bool :=
  negb ((400 <=? status_code r) && (status_code r <? 600)).

(** How a call ends: a response, or the first [except] clause of
    [_make_request] its exception matches. *)
Inductive Result : Type :=
  | Responded (r : Response)
  | Timeout
  | ConnectionError
  | RequestException (detail : string).

(** What the remote side does with a request, and the time it takes. *)
Record Reply : Type := {
  elapsed : Z;
  result : Result
}.

End requests.

Module logging.

Inductive level : Type := WARNING | ERROR.

(** One record of the module logger.  The message is the f-string's
    literal part with the arguments of [str] type already spliced in,
    followed by the interpolated [e.message], kept as a value. *)
Record record : Type := {
  levelname : level;
  msg : string;
  value : option json
}.

End logging.

Record World : Type := {
  store : gmap string (json * Z);   (* cache: key -> (value, expiry) *)
  cull : gmap string (json * Z) -> gmap string (json * Z);
                                    (* what the cache backend keeps when a set makes room *)
  now : Z;                          (* time.time(), in seconds *)
  remote : requests.Request -> requests.Reply;
  sent : list requests.Request;     (* requests issued so far, oldest first *)
  log : list logging.record         (* records logged so far, oldest first *)
}.

(** What the surroundings may do between two calls of the client: let
    [dt] seconds pass and change how the remote API answers. *)
Definition later (dt : Z) (remote' : requests.Request -> requests.Reply) (w : World) : World :=
  {| store := store w; cull := cull w; now := now w + dt; remote := remote';
     sent := sent w; log := log w |}.

(** ** Exceptions and the effect monad *)

(** The fields of a [SystemeCalculAPIError]. *)
Record api_error : Type := {
  message : json;
  status_code : option Z;
  response_data : option json
}.

Inductive exn : Type :=
| SystemeCalculAPIError (e : api_error)
| AttributeError (obj attr : string).   (* 'list' object has no attribute 'get' *)

Inductive outcome (A : Type) : Type :=
| Return (a : A)
| Raise (e : exn).
Arguments Return {A} a.
Arguments Raise {A} e.

Definition M (A : Type) : Type := World -> outcome A * World.

Definition ret {A} (a : A) : M A := fun w => (Return a, w).

Definition raise {A} (e : exn) : M A := fun w => (Raise e, w).

Definition bind {A B} (m : M A) (k : A -> M B) : M B :=
  fun w =>
    match m w with
    | (Return a, w') => k a w'
    | (Raise e, w') => (Raise e, w')
    end.

Notation "'let*' x ':=' m 'in' k" := (bind m (fun x => k))
  (at level 10, x name, m at level 100, k at level 200).

(** [try: body  except SystemeCalculAPIError as e: handler e]: no other
    exception class is caught. *)
Definition try_except {A} (body : M A) (handler : api_error -> M A) : M A :=
  fun w =>
    match body w with
    | (Raise (SystemeCalculAPIError e), w') => handler e w'
    | r => r
    end.

(** [SystemeCalculAPIError(message)] with the two optional arguments
    left at their default [None]. *)
Definition api_error_of (m : string) : exn :=
  SystemeCalculAPIError {| message := JStr m; status_code := None; response_data := None |}.

(** [v.get(key, default)]: only a dict has the method. *)
Definition type_name (v : json) : string :=
  match v with
  | JNull => "NoneType"
  | JBool _ => "bool"
  | JInt _ => "int"
  | JFloat _ => "float"
  | JStr _ => "str"
  | JList _ => "list"
  | JDict _ => "dict"
  end.

Definition py_get (v : json) (key : string) (default : json) : M json :=
  match v with
  | JDict d => ret (dict_get d key default)
  | _ => raise (AttributeError (type_name v) "get")
  end.

(** *** Collaborators *)

Module cache.

(** What [cache.get(key)] returns: the value of a live entry, [None]
    otherwise.  An entry is live while the clock is before its expiry. *)
Definition live_value (key : string) (w : World) : json :=
  match store w !! key with
  | Some (v, expiry) => if now w <? expiry then v else JNull
  | None => JNull
  end.

Definition get (key : string) : M json :=
  fun w => (Return (live_value key w), w).

(** The world after [cache.set(key, value, timeout)]: the backend first
    makes room as it sees fit (Django's default [LocMemCache] culls a
    third of its entries once it holds [MAX_ENTRIES] of them; which
    backend runs is a setting of the hosting project), then the entry
    goes in and expires [timeout] seconds from now. *)
Definition stored (key : string) (value : json) (timeout : Z) (w : World) : World :=
  {| store := <[key := (value, now w + timeout)]> (cull w (store w)); cull := cull w;
     now := now w;
     remote := remote w; sent := sent w; log := log w |}.

Definition set (key : string) (value : json) (timeout : Z) : M unit :=
  fun w => (Return tt, stored key value timeout w).

End cache.

Module logger.

Definition emit (r : logging.record) : M unit :=
  fun w =>
    (Return tt,
     {| store := store w; cull := cull w; now := now w; remote := remote w;
        sent := sent w; log := log w ++ [r] |}).

Definition warning (m : string) : M unit :=
  emit {| logging.levelname := logging.WARNING; logging.msg := m; logging.value := None |}.

Definition error (m : string) (v : json) : M unit :=
  emit {| logging.levelname := logging.ERROR; logging.msg := m; logging.value := Some v |}.

End logger.

(** [requests.request(...)]: the request goes out, the clock moves on by
    the time the remote side takes, and the call ends as the remote
    side decides. *)
Definition requests_request (req : requests.Request) : M requests.Result :=
  fun w =>
    let reply := remote w req in
    (Return (requests.result reply),
     {| store := store w; cull := cull w; now := now w + requests.elapsed reply; remote := remote w;
        sent := sent w ++ [req]; log := log w |}).

(** ** SystemeCalculClient *)

(** The three settings [__init__] reads with [getattr]: the URL and the
    key are [None] when the setting is missing or set to [None], the
    timeout is [None] when the setting is missing. *)
Record Settings : Type := {
  SYSTEME_CALCUL_API_URL : option string;
  SYSTEME_CALCUL_API_KEY : option string;
  SYSTEME_CALCUL_API_TIMEOUT : option Z
}.

Record SystemeCalculClient : Type := {
  base_url : option string;
  api_key : option string;
  timeout : Z
}.

Definition __init__ (settings : Settings) : M SystemeCalculClient :=
  let self :=
    {| base_url := SYSTEME_CALCUL_API_URL settings;
       api_key := SYSTEME_CALCUL_API_KEY settings;
       timeout := default 30 (SYSTEME_CALCUL_API_TIMEOUT settings) |} in
  let* _ := (if negb (truthy_str (base_url self))
             then logger.warning "SYSTEME_CALCUL_API_URL not configured in settings"
             else ret tt) in
  let* _ := (if negb (truthy_str (api_key self))
             then logger.warning "SYSTEME_CALCUL_API_KEY not configured in settings"
             else ret tt) in
  ret self.

(** The URL of line 87:
    [f"{self.base_url.rstrip('/')}/{endpoint.lstrip('/')}"]. *)
Definition target_url (base endpoint : string) : string :=
  rstrip_slash base +:+ "/" +:+ lstrip_slash endpoint.

(** The headers of lines 89-95. *)
Definition request_headers (token : option string) : list (string * string) :=
  let headers := [("Content-Type", "application/json"); ("Accept", "application/json")] in
  if truthy_str token
  then headers ++ [("Authorization", "Bearer " +:+ default "" token)]
  else headers.

(** Lines 107-111: the parsed body, or the raw-text envelope when the
    body is no JSON. *)
Definition parsed_body (response : requests.Response) : json :=
  match requests.json_body response with
  | Some v => v
  | None => JDict [("raw", JStr (requests.text response))]
  end.

Definition _make_request (self : SystemeCalculClient) (method endpoint : string)
    (data : option json) (token : option string) (params : option json) : M json :=
  if negb (truthy_str (base_url self)) then
    raise (api_error_of "API URL not configured")
  else
    let url := target_url (default "" (base_url self)) endpoint in
    let headers := request_headers token in
    let* res := requests_request
                  {| requests.method := upper method;
                     requests.url := url;
                     requests.json := data;
                     requests.headers := headers;
                     requests.params := params;
                     requests.timeout := timeout self |} in
    match res with
    | requests.Responded response =>
        let response_data := parsed_body response in
        if negb (requests.ok response) then
          let* error_message :=
            py_get response_data "error"
              (JStr ("HTTP " +:+ str_of_int (requests.status_code response))) in
          raise (SystemeCalculAPIError
                   {| message := error_message;
                      status_code := Some (requests.status_code response);
                      response_data := Some response_data |})
        else ret response_data
    | requests.Timeout =>
        raise (api_error_of "Request timeout - API server not responding")
    | requests.ConnectionError =>
        raise (api_error_of "Connection error - Cannot reach API server")
    | requests.RequestException detail =>
        raise (api_error_of ("Request failed: " +:+ detail))
    end.

(** [{'success': False, 'error': m}] and its two variants. *)
Definition failure (m : json) : json :=
  JDict [("success", JBool false); ("error", m)].

Definition failure_with (m : json) (placeholder : string) : json :=
  JDict [("success", JBool false); ("error", m); (placeholder, JList [])].

Definition authenticate_student (self : SystemeCalculClient) (email password : string) : M json :=
  if negb (truthy_str (api_key self)) then
    ret (failure (JStr "API key not configured"))
  else
    try_except
      (let* response :=
         _make_request self "POST" "/auth/external-login"
           (Some (JDict [("email", JStr email);
                         ("password", JStr password);
                         ("app_key", JStr (default "" (api_key self)))]))
           None None in
       let* student := py_get response "student" JNull in
       let* token := py_get response "token" JNull in
       let* expires_in := py_get response "expiresIn" (JStr "24h") in
       ret (JDict [("success", JBool true);
                   ("student", student);
                   ("token", token);
                   ("expires_in", expires_in)]))
      (fun e =>
         let* _ := logger.error ("Authentication failed for " +:+ email +:+ ": ") (message e) in
         ret (failure (message e))).

Definition cache_key_of (token : string) : string :=
  "student_profile_" +:+ str_prefix 20 token.

Definition get_student_profile (self : SystemeCalculClient) (token : string) : M json :=
  let cache_key := cache_key_of token in
  let* cached_data := cache.get cache_key in
  if truthy cached_data then
    ret cached_data
  else
    try_except
      (let* response :=
         _make_request self "GET" "/students/me/profile" None (Some token) None in
       let* _ := cache.set cache_key response 300 in
       ret response)
      (fun e =>
         let* _ := logger.error "Failed to get student profile: " (message e) in
         ret (failure (message e))).

Definition get_student_formations (self : SystemeCalculClient) (student_id : Z) (token : string) : M json :=
  try_except
    (let* response :=
       _make_request self "GET" ("/students/" +:+ str_of_int student_id +:+ "/formations")
         None (Some token) None in
     ret response)
    (fun e =>
       let* _ := logger.error
                   ("Failed to get formations for student " +:+ str_of_int student_id +:+ ": ")
                   (message e) in
       ret (failure_with (message e) "formations")).

Definition get_student_schedule (self : SystemeCalculClient) (student_id : Z) (token : string) : M json :=
  try_except
    (let* response :=
       _make_request self "GET" ("/students/" +:+ str_of_int student_id +:+ "/schedule")
         None (Some token) None in
     ret response)
    (fun e =>
       let* _ := logger.error
                   ("Failed to get schedule for student " +:+ str_of_int student_id +:+ ": ")
                   (message e) in
       ret (failure_with (message e) "schedule")).

Definition verify_token (self : SystemeCalculClient) (token : string) : M bool :=
  try_except
    (let* _ := _make_request self "GET" "/auth/me" None (Some token) None in
     ret true)
    (fun _ => ret false).

Definition refresh_token (self : SystemeCalculClient) (token : string) : M json :=
  try_except
    (let* response := _make_request self "POST" "/auth/refresh" None (Some token) None in
     py_get response "token" JNull)
    (fun e =>
       let* _ := logger.error "Failed to refresh token: " (message e) in
       ret JNull).


(** ** Worlds after a step *)

(** The request [_make_request] hands to [requests.request]. *)
Definition request_of (self : SystemeCalculClient) (method endpoint : string)
    (data : option json) (token : option string) (params : option json) : requests.Request :=
  {| requests.method := upper method;
     requests.url := target_url (default "" (base_url self)) endpoint;
     requests.json := data;
     requests.headers := request_headers token;
     requests.params := params;
     requests.timeout := timeout self |}.

(** The world once [req] went out and was answered. *)
Definition answered (req : requests.Request) (w : World) : World :=
  {| store := store w; cull := cull w; now := now w + requests.elapsed (remote w req); remote := remote w;
     sent := sent w ++ [req]; log := log w |}.

(** The world once one more record was logged. *)
Definition logged (r : logging.record) (w : World) : World :=
  {| store := store w; cull := cull w; now := now w; remote := remote w; sent := sent w; log := log w ++ [r] |}.

Definition error_record (m : string) (v : json) : logging.record :=
  {| logging.levelname := logging.ERROR; logging.msg := m; logging.value := Some v |}.

(** ** The calls of [_make_request] the operations make *)

Definition login_data (self : SystemeCalculClient) (email password : string) : json :=
  JDict [("email", JStr email);
         ("password", JStr password);
         ("app_key", JStr (default "" (api_key self)))].

Definition send_login (self : SystemeCalculClient) (email password : string) : M json :=
  _make_request self "POST" "/auth/external-login"
    (Some (login_data self email password)) None None.

Definition send_profile (self : SystemeCalculClient) (token : string) : M json :=
  _make_request self "GET" "/students/me/profile" None (Some token) None.

Definition send_formations (self : SystemeCalculClient) (student_id : Z) (token : string) : M json :=
  _make_request self "GET" ("/students/" +:+ str_of_int student_id +:+ "/formations")
    None (Some token) None.

Definition send_schedule (self : SystemeCalculClient) (student_id : Z) (token : string) : M json :=
  _make_request self "GET" ("/students/" +:+ str_of_int student_id +:+ "/schedule")
    None (Some token) None.

Definition send_verify (self : SystemeCalculClient) (token : string) : M json :=
  _make_request self "GET" "/auth/me" None (Some token) None.

Definition send_refresh (self : SystemeCalculClient) (token : string) : M json :=
  _make_request self "POST" "/auth/refresh" None (Some token) None.

(** The record each operation logs when its call fails. *)
Definition login_failed (email : string) (e : api_error) : logging.record :=
  error_record ("Authentication failed for " +:+ email +:+ ": ") (message e).

Definition profile_failed (e : api_error) : logging.record :=
  error_record "Failed to get student profile: " (message e).

Definition formations_failed (student_id : Z) (e : api_error) : logging.record :=
  error_record ("Failed to get formations for student " +:+ str_of_int student_id +:+ ": ")
    (message e).

Definition schedule_failed (student_id : Z) (e : api_error) : logging.record :=
  error_record ("Failed to get schedule for student " +:+ str_of_int student_id +:+ ": ")
    (message e).

Definition refresh_failed (e : api_error) : logging.record :=
  error_record "Failed to refresh token: " (message e).

(** The result of a successful [authenticate_student], from the dict
    the API answered with. *)
Definition auth_success (d : list (string * json)) : json :=
  JDict [("success", JBool true);
         ("student", dict_get d "student" JNull);
         ("token", dict_get d "token" JNull);
         ("expires_in", dict_get d "expiresIn" (JStr "24h"))].

(** [result['success']] read as a condition, as callers do; false for
    anything that is no dict. *)
Definition is_success (result : json) : bool :=
  match result with
  | JDict d => truthy (dict_get d "success" JNull)
  | _ => false
  end.

(** [key in result]. *)
Definition has_field (result : json) (key : string) : bool :=
  match result with
  | JDict d => dict_has d key
  | _ => false
  end.

(** A call ended without a [SystemeCalculAPIError] passing its
    boundary: it returned, or raised something else. *)
Definition no_api_error {A} (r : outcome A * World) : Prop :=
  forall e : api_error, fst r <> Raise (SystemeCalculAPIError e).

(** A call ended by returning a value. *)
Definition returns {A} (r : outcome A * World) : Prop :=
  exists a : A, fst r = Return a.

(** The error [_make_request] raises when no base URL is configured. *)
Definition url_not_configured : api_error :=
  {| message := JStr "API URL not configured"; status_code := None; response_data := None |}.

(** Every response of the remote side carries a JSON object, or no
    JSON at all (and is read through the raw-text envelope). *)
Definition object_bodies (w : World) : Prop :=
  forall (req : requests.Request) (r : requests.Response),
    requests.result (remote w req) = requests.Responded r ->
    exists d : list (string * json), parsed_body r = JDict d.

(** ** Concrete worlds and clients used in the examples *)

(** A remote side that gives the same reply to every request. *)
Definition always (dt : Z) (r : requests.Result) : requests.Request -> requests.Reply :=
  fun _ => {| requests.elapsed := dt; requests.result := r |}.

(** A response whose body parsed as JSON to [body]; its raw text, which
    the client reads only when parsing fails, is left empty. *)
Definition json_response (status : Z) (body : json) : requests.Result :=
  requests.Responded
    {| requests.status_code := status; requests.text := ""; requests.json_body := Some body |}.

(** A fresh process: empty cache, far from any entry limit (a set drops
    nothing), clock at [t], nothing sent or logged. *)
Definition fresh (t : Z) (r : requests.Request -> requests.Reply) : World :=
  {| store := ∅; cull := (fun s => s); now := t; remote := r; sent := []; log := [] |}.

Definition configured : SystemeCalculClient :=
  {| base_url := Some "https://api.example.com/"; api_key := Some "k3y"; timeout := 30 |}.

Definition no_api_key : SystemeCalculClient :=
  {| base_url := Some "https://api.example.com/"; api_key := None; timeout := 30 |}.

Definition no_base_url : SystemeCalculClient :=
  {| base_url := None; api_key := Some "k3y"; timeout := 30 |}.

(** A 401 response whose body is the JSON object with the one entry
    [error], an empty string. *)
Definition empty_error_401 : requests.Result :=
  json_response 401 (JDict [("error", JStr "")]).

(** The message of a failed call as the specification words it:
    [parsed_body.error or "HTTP <status>"], the error field, or the
    status text when the field is absent or falsy. *)
Definition message_as_specified (d : list (string * json)) (status : Z) : json :=
  let field := dict_get d "error" JNull in
  if truthy field then field else JStr ("HTTP " +:+ str_of_int status).

(** A 500 response whose body is the JSON array [[]]. *)
Definition array_error_500 : requests.Result :=
  json_response 500 (JList []).

(** Two tokens that differ only after their first 20 characters. *)
Definition alice_token : string := "eyJhbGciOiJIUzI1NiJ9.alice".
Definition bob_token : string := "eyJhbGciOiJIUzI1NiJ9.bob".

(** A remote side that answers every profile request with [200] and
    the body [body], after one second. *)
Definition profile_is (body : json) : requests.Request -> requests.Reply :=
  always 1 (json_response 200 body).

(** The world after a first [get_student_profile] that fetched an empty
    JSON object, for the token ["tok"] and for [alice_token]. *)
Definition after_empty_profile : World :=
  snd (get_student_profile configured "tok" (fresh 0 (profile_is (JDict [])))).

Definition after_empty_alice_profile : World :=
  snd (get_student_profile configured alice_token (fresh 0 (profile_is (JDict [])))).

(** ** The module-level singleton *)

(** [get_api_client()].  The module global [_client_instance] is passed
    in and handed back beside the returned client; [settings] is what
    [__init__] reads if it runs now. *)
Definition get_api_client (settings : Settings)
    (_client_instance : option SystemeCalculClient)
    : M (SystemeCalculClient * option SystemeCalculClient) :=
  match _client_instance with
  | None => let* instance := __init__ settings in ret (instance, Some instance)
  | Some instance => ret (instance, Some instance)
  end.

(** The warnings [__init__] logs for [settings], in order. *)
Definition init_warnings (settings : Settings) : list logging.record :=
  (if truthy_str (SYSTEME_CALCUL_API_URL settings) then []
   else [{| logging.levelname := logging.WARNING;
            logging.msg := "SYSTEME_CALCUL_API_URL not configured in settings";
            logging.value := None |}])
  ++
  (if truthy_str (SYSTEME_CALCUL_API_KEY settings) then []
   else [{| logging.levelname := logging.WARNING;
            logging.msg := "SYSTEME_CALCUL_API_KEY not configured in settings";
            logging.value := None |}]).

(** Settings with neither URL nor key, and complete ones. *)
Definition empty_settings : Settings :=
  {| SYSTEME_CALCUL_API_URL := None; SYSTEME_CALCUL_API_KEY := None;
     SYSTEME_CALCUL_API_TIMEOUT := None |}.

Definition full_settings : Settings :=
  {| SYSTEME_CALCUL_API_URL := Some "https://api.example.com/";
     SYSTEME_CALCUL_API_KEY := Some "k3y";
     SYSTEME_CALCUL_API_TIMEOUT := Some 10 |}.

(** ** What a call may do to the world *)

(** What an operation logs, given how its call of [_make_request]
    ended: the failure record for a [SystemeCalculAPIError], nothing
    otherwise. *)
Definition log_after (record_of : api_error -> logging.record) (sending : outcome json)
    (w : World) : list logging.record :=
  match sending with
  | Raise (SystemeCalculAPIError e) => (log w ++ [record_of e])%list
  | _ => log w
  end.

(** The four errors [_make_request] raises without a response. *)
Definition timeout_error : api_error :=
  {| message := JStr "Request timeout - API server not responding";
     status_code := None; response_data := None |}.

Definition connection_error : api_error :=
  {| message := JStr "Connection error - Cannot reach API server";
     status_code := None; response_data := None |}.

Definition request_failed_error (detail : string) : api_error :=
  {| message := JStr ("Request failed: " +:+ detail);
     status_code := None; response_data := None |}.

(** The error [_make_request] raises for a response that is not ok and
    whose parsed body is the dict [d]. *)
Definition http_error (r : requests.Response) (d : list (string * json)) : api_error :=
  {| message := dict_get d "error" (JStr ("HTTP " +:+ str_of_int (requests.status_code r)));
     status_code := Some (requests.status_code r);
     response_data := Some (JDict d) |}.

(** A response whose body is no JSON: [response.json()] raises and the
    client falls back on the text. *)
Definition text_response (status : Z) (body : string) : requests.Response :=
  {| requests.status_code := status; requests.text := body; requests.json_body := None |}.

(** The last character of a string, if it has one. *)
Fixpoint last_char (s : string) : option ascii :=
  match s with
  | EmptyString => None
  | String c EmptyString => Some c
  | String _ rest => last_char rest
  end.

(** The world [w] with another cache store. *)
Definition with_store (s : gmap string (json * Z)) (w : World) : World :=
  {| store := s; cull := cull w; now := now w; remote := remote w; sent := sent w; log := log w |}.

(** A store whose one entry belongs to another token. *)
Definition store_of_another_token : gmap string (json * Z) :=
  <["student_profile_another-token" := (JDict [("name", JStr "Eve")], 300)]> ∅.

(** The client [self] with [base] as its base URL. *)
Definition with_base_url (base : string) (self : SystemeCalculClient) : SystemeCalculClient :=
  {| base_url := Some base; api_key := api_key self; timeout := timeout self |}.

(** The requests of the five operations that carry a token. *)
Definition profile_request (self : SystemeCalculClient) (token : string) : requests.Request :=
  request_of self "GET" "/students/me/profile" None (Some token) None.

Definition formations_request (self : SystemeCalculClient) (student_id : Z) (token : string)
    : requests.Request :=
  request_of self "GET" ("/students/" +:+ str_of_int student_id +:+ "/formations")
    None (Some token) None.

Definition schedule_request (self : SystemeCalculClient) (student_id : Z) (token : string)
    : requests.Request :=
  request_of self "GET" ("/students/" +:+ str_of_int student_id +:+ "/schedule")
    None (Some token) None.

Definition verify_request (self : SystemeCalculClient) (token : string) : requests.Request :=
  request_of self "GET" "/auth/me" None (Some token) None.

Definition refresh_request (self : SystemeCalculClient) (token : string) : requests.Request :=
  request_of self "POST" "/auth/refresh" None (Some token) None.

Definition login_request (self : SystemeCalculClient) (email password : string)
    : requests.Request :=
  request_of self "POST" "/auth/external-login"
    (Some (login_data self email password)) None None.

(** ** Properties *)

(** *** Python helpers on small inputs *)

Example upper_post : upper "post" = "POST".
Proof. reflexivity. Qed.

Example str_of_int_401 : str_of_int 401 = "401" /\ str_of_int 0 = "0" /\ str_of_int (-7) = "-7".
Proof. repeat split. Qed.

Example rstrip_example : rstrip_slash "https://api.example.com//" = "https://api.example.com".
Proof. reflexivity. Qed.

Example truthy_examples :
  truthy (JDict []) = false /\ truthy (JFloat 0%float) = false /\
  truthy (JStr "") = false /\ truthy (JDict [("id", JInt 1)]) = true.
Proof. repeat split. Qed.

(** *** Stripping slashes *)

Lemma append_String (c : ascii) (s t : string) :
  String c s +:+ t = String c (s +:+ t).
Proof. reflexivity. Qed.

Lemma append_empty (t : string) : "" +:+ t = t.
Proof. reflexivity. Qed.

Lemma lstrip_slash_spec (s : string) :
  (exists n, s = slashes n +:+ lstrip_slash s) /\ starts_with_slash (lstrip_slash s) = false.
Proof.
  induction s as [|c rest [[n Hn] Hs]]; simpl.
  - split; [exists O|]; reflexivity.
  - destruct (Ascii.eqb c "/") eqn:Hc.
    + apply Ascii.eqb_eq in Hc. subst c. split; [|exact Hs].
      exists (S n). simpl. rewrite append_String. f_equal. exact Hn.
    + split; [exists O; reflexivity|]. simpl. exact Hc.
Qed.

Lemma rstrip_slash_spec (s : string) :
  (exists n, s = rstrip_slash s +:+ slashes n) /\ ends_with_slash (rstrip_slash s) = false.
Proof.
  induction s as [|c rest [[n Hn] Hs]]; simpl.
  - split; [exists O|]; reflexivity.
  - destruct (rstrip_slash rest) as [|c' r] eqn:Hr.
    + rewrite append_empty in Hn. destruct (Ascii.eqb c "/") eqn:Hc.
      * apply Ascii.eqb_eq in Hc. subst c. split; [|reflexivity].
        exists (S n). rewrite append_empty. simpl. f_equal. exact Hn.
      * split; [|simpl; exact Hc]. exists n.
        rewrite append_String, append_empty. f_equal. exact Hn.
    + split; [|exact Hs]. exists n. rewrite append_String. f_equal. exact Hn.
Qed.

(** *** The transport step, case by case *)

Section MakeRequest.

Variable self : SystemeCalculClient.
Variables method endpoint : string.
Variables data params : option json.
Variable token : option string.
Variable w : World.

Local Abbreviation req := (request_of self method endpoint data token params).
Local Abbreviation send := (_make_request self method endpoint data token params).

Lemma make_request_no_url :
  truthy_str (base_url self) = false ->
  send w = (Raise (api_error_of "API URL not configured"), w).
Proof.
  intros H. unfold _make_request. rewrite H. reflexivity.
Qed.

Hypothesis Hurl : truthy_str (base_url self) = true.

Lemma make_request_ok (r : requests.Response) :
  requests.result (remote w req) = requests.Responded r ->
  requests.ok r = true ->
  send w = (Return (parsed_body r), answered req w).
Proof.
  intros Hres Hok. unfold _make_request, bind, requests_request.
  rewrite Hurl. simpl. fold (request_of self method endpoint data token params).
  rewrite Hres, Hok. reflexivity.
Qed.

Lemma make_request_not_ok (r : requests.Response) (d : list (string * json)) :
  requests.result (remote w req) = requests.Responded r ->
  requests.ok r = false ->
  parsed_body r = JDict d ->
  send w = (Raise (SystemeCalculAPIError
                     {| message := dict_get d "error"
                                     (JStr ("HTTP " +:+ str_of_int (requests.status_code r)));
                        status_code := Some (requests.status_code r);
                        response_data := Some (JDict d) |}),
            answered req w).
Proof.
  intros Hres Hok Hbody. unfold _make_request, bind, requests_request.
  rewrite Hurl. simpl. fold (request_of self method endpoint data token params).
  rewrite Hres, Hok, Hbody. reflexivity.
Qed.

Lemma make_request_not_ok_no_dict (r : requests.Response) :
  requests.result (remote w req) = requests.Responded r ->
  requests.ok r = false ->
  (forall d, parsed_body r <> JDict d) ->
  send w = (Raise (AttributeError (type_name (parsed_body r)) "get"), answered req w).
Proof.
  intros Hres Hok Hbody. unfold _make_request, bind, requests_request.
  rewrite Hurl. simpl. fold (request_of self method endpoint data token params).
  rewrite Hres, Hok. simpl.
  destruct (parsed_body r) eqn:E; try reflexivity.
  exfalso. eapply Hbody. reflexivity.
Qed.

Lemma make_request_timeout :
  requests.result (remote w req) = requests.Timeout ->
  send w = (Raise (api_error_of "Request timeout - API server not responding"),
            answered req w).
Proof.
  intros Hres. unfold _make_request, bind, requests_request.
  rewrite Hurl. simpl. fold (request_of self method endpoint data token params).
  rewrite Hres. reflexivity.
Qed.

Lemma make_request_connection_error :
  requests.result (remote w req) = requests.ConnectionError ->
  send w = (Raise (api_error_of "Connection error - Cannot reach API server"),
            answered req w).
Proof.
  intros Hres. unfold _make_request, bind, requests_request.
  rewrite Hurl. simpl. fold (request_of self method endpoint data token params).
  rewrite Hres. reflexivity.
Qed.

Lemma make_request_other (detail : string) :
  requests.result (remote w req) = requests.RequestException detail ->
  send w = (Raise (api_error_of ("Request failed: " +:+ detail)), answered req w).
Proof.
  intros Hres. unfold _make_request, bind, requests_request.
  rewrite Hurl. simpl. fold (request_of self method endpoint data token params).
  rewrite Hres. reflexivity.
Qed.

(** Whatever the answer, a configured client sends exactly one request. *)
Lemma make_request_world :
  snd (send w) = answered req w.
Proof.
  destruct (requests.result (remote w req)) as [r| | |detail] eqn:Hres.
  - destruct (requests.ok r) eqn:Hok.
    + rewrite (make_request_ok r Hres Hok). reflexivity.
    + destruct (parsed_body r) eqn:Hbody;
        try (rewrite (make_request_not_ok_no_dict r Hres Hok);
             [reflexivity | intros d' Hd; rewrite Hbody in Hd; discriminate]).
      rewrite (make_request_not_ok r d Hres Hok Hbody). reflexivity.
  - rewrite (make_request_timeout Hres). reflexivity.
  - rewrite (make_request_connection_error Hres). reflexivity.
  - rewrite (make_request_other detail Hres). reflexivity.
Qed.

End MakeRequest.

(** The three ways the transport step ends: it returns the parsed body
    of an ok response, it raises its own error, or it trips over a
    not-ok response whose body is no dict. *)
Lemma make_request_cases (self : SystemeCalculClient) (method endpoint : string)
    (data : option json) (token : option string) (params : option json) (w : World) :
  (exists r : requests.Response,
      requests.result (remote w (request_of self method endpoint data token params))
        = requests.Responded r
      /\ _make_request self method endpoint data token params w
         = (Return (parsed_body r),
            answered (request_of self method endpoint data token params) w))
  \/ (exists (e : api_error) (w' : World),
         _make_request self method endpoint data token params w
         = (Raise (SystemeCalculAPIError e), w'))
  \/ (exists r : requests.Response,
         requests.result (remote w (request_of self method endpoint data token params))
           = requests.Responded r
         /\ (forall d, parsed_body r <> JDict d)
         /\ _make_request self method endpoint data token params w
            = (Raise (AttributeError (type_name (parsed_body r)) "get"),
               answered (request_of self method endpoint data token params) w)).
Proof.
  destruct (truthy_str (base_url self)) eqn:Hurl.
  - destruct (requests.result (remote w (request_of self method endpoint data token params)))
      as [r| | |detail] eqn:Hres.
    + destruct (requests.ok r) eqn:Hok.
      * left. exists r. split; [reflexivity|]. apply make_request_ok; assumption.
      * assert (Hcase : (exists d, parsed_body r = JDict d)
                        \/ (forall d, parsed_body r <> JDict d))
          by (destruct (parsed_body r); eauto; right; intros d'; discriminate).
        destruct Hcase as [[d Hbody] | Hno].
        -- right; left. eexists _, _. apply make_request_not_ok; eassumption.
        -- right; right. exists r. split; [reflexivity|]. split; [exact Hno|].
           apply make_request_not_ok_no_dict; assumption.
    + right; left. eexists _, _. apply make_request_timeout; assumption.
    + right; left. eexists _, _. apply make_request_connection_error; assumption.
    + right; left. eexists _, _. apply make_request_other; eassumption.
  - right; left. eexists _, _. apply make_request_no_url. exact Hurl.
Qed.

(** *** authenticate_student *)

(** C6: when no API key is configured ([api_key] is [None] or empty),
    [authenticate_student] returns
    [{'success': False, 'error': 'API key not configured'}] for every
    email and password and leaves the world as it was: no request is
    sent, nothing is logged. *)
Theorem authenticate_without_api_key :
  forall (self : SystemeCalculClient) (email password : string) (w : World),
    truthy_str (api_key self) = false ->
    authenticate_student self email password w
      = (Return (JDict [("success", JBool false);
                        ("error", JStr "API key not configured")]), w)
    /\ sent (snd (authenticate_student self email password w)) = sent w.
Proof.
  intros self email password w Hkey.
  unfold authenticate_student. rewrite Hkey. simpl. split; reflexivity.
Qed.

Lemma authenticate_without_api_key_witness :
  truthy_str (api_key no_api_key) = false
  /\ authenticate_student no_api_key "a@b.com" "pw" (fresh 0 (always 1 requests.Timeout))
     = (Return (JDict [("success", JBool false);
                       ("error", JStr "API key not configured")]),
        fresh 0 (always 1 requests.Timeout)).
Proof.
  split; [reflexivity|].
  apply (authenticate_without_api_key no_api_key "a@b.com" "pw"
           (fresh 0 (always 1 requests.Timeout))).
  reflexivity.
Defined.

(** *** The target URL *)

Example target_url_example :
  target_url "https://api.example.com/" "/auth/me" = "https://api.example.com/auth/me"
  /\ target_url "https://api.example.com" "auth/me" = "https://api.example.com/auth/me"
  /\ target_url "https://api.example.com///" "//auth/me" = "https://api.example.com/auth/me".
Proof. repeat split. Qed.

Lemma truthy_str_Some (o : option string) :
  truthy_str o = true -> exists s, o = Some s /\ s <> "".
Proof.
  destruct o as [s|]; simpl; [|discriminate].
  intros H. exists s. split; [reflexivity|].
  intros ->. discriminate.
Qed.

(** C4: with a base URL configured, [_make_request] sends exactly one
    request, and its URL is [b + "/" + e], where [b] is the base URL
    without its trailing slashes (however many) and [e] is the endpoint
    without its leading slashes (however many): [b] does not end and
    [e] does not start with a slash, so one slash stands at the joint. *)
Theorem make_request_url_one_slash :
  forall (self : SystemeCalculClient) (method endpoint : string)
         (data : option json) (token : option string) (params : option json) (w : World),
    truthy_str (base_url self) = true ->
    exists (base b e : string) (n m : nat) (req : requests.Request),
      base_url self = Some base
      /\ base = b +:+ slashes n /\ ends_with_slash b = false
      /\ endpoint = slashes m +:+ e /\ starts_with_slash e = false
      /\ requests.url req = b +:+ "/" +:+ e
      /\ sent (snd (_make_request self method endpoint data token params w)) = (sent w ++ [req])%list.
Proof.
  intros self method endpoint data token params w Hurl.
  destruct (truthy_str_Some _ Hurl) as (base & Hbase & _).
  destruct (rstrip_slash_spec base) as [[n Hn] Hb].
  destruct (lstrip_slash_spec endpoint) as [[m Hm] He].
  exists base, (rstrip_slash base), (lstrip_slash endpoint), n, m,
    (request_of self method endpoint data token params).
  repeat split; try assumption.
  - simpl. rewrite Hbase. reflexivity.
  - rewrite make_request_world by exact Hurl. reflexivity.
Qed.

Lemma make_request_url_one_slash_witness :
  truthy_str (base_url configured) = true
  /\ exists (base b e : string) (n m : nat) (req : requests.Request),
      base_url configured = Some base
      /\ base = b +:+ slashes n /\ ends_with_slash b = false
      /\ "/auth/me" = slashes m +:+ e /\ starts_with_slash e = false
      /\ requests.url req = b +:+ "/" +:+ e
      /\ sent (snd (_make_request configured "get" "/auth/me" None None None
                      (fresh 0 (always 1 requests.Timeout)))) = ([] ++ [req])%list.
Proof.
  split; [reflexivity|].
  apply (make_request_url_one_slash configured "get" "/auth/me" None None None
           (fresh 0 (always 1 requests.Timeout))).
  reflexivity.
Defined.

Example make_request_sends :
  sent (snd (_make_request configured "get" "/auth/me" None (Some "tok") None
               (fresh 0 (always 1 requests.Timeout))))
  = [ {| requests.method := "GET";
         requests.url := "https://api.example.com/auth/me";
         requests.json := None;
         requests.headers := [("Content-Type", "application/json");
                              ("Accept", "application/json");
                              ("Authorization", "Bearer tok")];
         requests.params := None;
         requests.timeout := 30 |} ].
Proof. reflexivity. Qed.

(** *** Running the monad *)

Lemma try_except_return {A} (body : M A) (handler : api_error -> M A) (w w' : World) (a : A) :
  body w = (Return a, w') -> try_except body handler w = (Return a, w').
Proof. intros H. unfold try_except. rewrite H. reflexivity. Qed.

Lemma try_except_api_error {A} (body : M A) (handler : api_error -> M A) (w w' : World)
    (e : api_error) :
  body w = (Raise (SystemeCalculAPIError e), w') -> try_except body handler w = handler e w'.
Proof. intros H. unfold try_except. rewrite H. reflexivity. Qed.

Lemma try_except_attribute_error {A} (body : M A) (handler : api_error -> M A) (w w' : World)
    (o a : string) :
  body w = (Raise (AttributeError o a), w') ->
  try_except body handler w = (Raise (AttributeError o a), w').
Proof. intros H. unfold try_except. rewrite H. reflexivity. Qed.

Lemma bind_return {A B} (m : M A) (k : A -> M B) (w w' : World) (a : A) :
  m w = (Return a, w') -> bind m k w = k a w'.
Proof. intros H. unfold bind. rewrite H. reflexivity. Qed.

Lemma bind_raise {A B} (m : M A) (k : A -> M B) (w w' : World) (e : exn) :
  m w = (Raise e, w') -> bind m k w = (Raise e, w').
Proof. intros H. unfold bind. rewrite H. reflexivity. Qed.

(** Whatever [try_except] lets through is no [SystemeCalculAPIError],
    as long as the handler raises none. *)
Lemma try_except_catches {A} (body : M A) (handler : api_error -> M A) (w : World) :
  (forall e w', exists a w'', handler e w' = (Return a, w'')) ->
  forall e, fst (try_except body handler w) <> Raise (SystemeCalculAPIError e).
Proof.
  intros Hh e. unfold try_except.
  destruct (body w) as [[a|[e'|o at']] w'] eqn:Hb; simpl; try discriminate.
  destruct (Hh e' w') as (a & w'' & ->). simpl. discriminate.
Qed.

(** *** dict.get *)

Lemma dict_get_present (d : list (string * json)) (key : string) (default1 default2 : json) :
  dict_has d key = true -> dict_get d key default1 = dict_get d key default2.
Proof.
  induction d as [|[k v] rest IH]; simpl; [discriminate|].
  destruct (String.eqb k key); simpl; [reflexivity|exact IH].
Qed.

Lemma dict_get_absent (d : list (string * json)) (key : string) (default : json) :
  dict_has d key = false -> dict_get d key default = default.
Proof.
  induction d as [|[k v] rest IH]; simpl; [reflexivity|].
  destruct (String.eqb k key); simpl; [discriminate|exact IH].
Qed.

(** *** Classification by status *)

Lemma ok_2xx (r : requests.Response) :
  200 <= requests.status_code r < 300 -> requests.ok r = true.
Proof. intros H. unfold requests.ok. apply negb_true_iff, andb_false_iff. lia. Qed.

Lemma not_ok_4xx_5xx (r : requests.Response) :
  400 <= requests.status_code r < 600 -> requests.ok r = false.
Proof. intros H. unfold requests.ok. apply negb_false_iff, andb_true_iff. lia. Qed.

(** *** The operations, by how their call of [_make_request] ends *)

Section Operations.

Variable self : SystemeCalculClient.
Variables w w' : World.

Lemma authenticate_failed (email password : string) (e : api_error) :
  truthy_str (api_key self) = true ->
  send_login self email password w = (Raise (SystemeCalculAPIError e), w') ->
  authenticate_student self email password w
  = (Return (failure (message e)), logged (login_failed email e) w').
Proof.
  intros Hkey Hsend. unfold authenticate_student. rewrite Hkey. simpl.
  erewrite try_except_api_error; [reflexivity|].
  apply bind_raise. exact Hsend.
Qed.

Lemma authenticate_succeeded (email password : string) (d : list (string * json)) :
  truthy_str (api_key self) = true ->
  send_login self email password w = (Return (JDict d), w') ->
  authenticate_student self email password w = (Return (auth_success d), w').
Proof.
  intros Hkey Hsend. unfold authenticate_student. rewrite Hkey. simpl.
  apply try_except_return. erewrite bind_return by exact Hsend. reflexivity.
Qed.

Lemma authenticate_no_dict (email password : string) (v : json) :
  truthy_str (api_key self) = true ->
  send_login self email password w = (Return v, w') ->
  (forall d, v <> JDict d) ->
  authenticate_student self email password w = (Raise (AttributeError (type_name v) "get"), w').
Proof.
  intros Hkey Hsend Hv. unfold authenticate_student. rewrite Hkey. simpl.
  apply try_except_attribute_error. erewrite bind_return by exact Hsend.
  destruct v; try reflexivity. exfalso. eapply Hv. reflexivity.
Qed.

Lemma authenticate_attribute_error (email password : string) (o a : string) :
  truthy_str (api_key self) = true ->
  send_login self email password w = (Raise (AttributeError o a), w') ->
  authenticate_student self email password w = (Raise (AttributeError o a), w').
Proof.
  intros Hkey Hsend. unfold authenticate_student. rewrite Hkey. simpl.
  apply try_except_attribute_error. apply bind_raise. exact Hsend.
Qed.

Lemma formations_failed_result (student_id : Z) (token : string) (e : api_error) :
  send_formations self student_id token w = (Raise (SystemeCalculAPIError e), w') ->
  get_student_formations self student_id token w
  = (Return (failure_with (message e) "formations"), logged (formations_failed student_id e) w').
Proof.
  intros Hsend. unfold get_student_formations.
  erewrite try_except_api_error; [reflexivity|]. apply bind_raise. exact Hsend.
Qed.

Lemma schedule_failed_result (student_id : Z) (token : string) (e : api_error) :
  send_schedule self student_id token w = (Raise (SystemeCalculAPIError e), w') ->
  get_student_schedule self student_id token w
  = (Return (failure_with (message e) "schedule"), logged (schedule_failed student_id e) w').
Proof.
  intros Hsend. unfold get_student_schedule.
  erewrite try_except_api_error; [reflexivity|]. apply bind_raise. exact Hsend.
Qed.

Lemma verify_failed (token : string) (e : api_error) :
  send_verify self token w = (Raise (SystemeCalculAPIError e), w') ->
  verify_token self token w = (Return false, w').
Proof.
  intros Hsend. unfold verify_token.
  erewrite try_except_api_error; [reflexivity|]. apply bind_raise. exact Hsend.
Qed.

Lemma verify_succeeded (token : string) (v : json) :
  send_verify self token w = (Return v, w') ->
  verify_token self token w = (Return true, w').
Proof.
  intros Hsend. unfold verify_token.
  apply try_except_return. erewrite bind_return by exact Hsend. reflexivity.
Qed.

Lemma refresh_failed_result (token : string) (e : api_error) :
  send_refresh self token w = (Raise (SystemeCalculAPIError e), w') ->
  refresh_token self token w = (Return JNull, logged (refresh_failed e) w').
Proof.
  intros Hsend. unfold refresh_token.
  erewrite try_except_api_error; [reflexivity|]. apply bind_raise. exact Hsend.
Qed.

Lemma refresh_succeeded (token : string) (d : list (string * json)) :
  send_refresh self token w = (Return (JDict d), w') ->
  refresh_token self token w = (Return (dict_get d "token" JNull), w').
Proof.
  intros Hsend. unfold refresh_token.
  apply try_except_return. erewrite bind_return by exact Hsend. reflexivity.
Qed.

End Operations.

(** *** Responses, by status *)

(** C3, as the code has it: a 2xx response makes [_make_request]
    return the parsed body as it is; a 4xx or 5xx response whose parsed
    body is a dict makes it raise a [SystemeCalculAPIError] that carries
    the status code and the parsed body, with the body's [error] entry
    as message whenever the key is present (whatever its value, falsy
    ones included) and ["HTTP <status>"] only when the key is absent.
    A 401 response with body [{"error": "invalid credentials"}] makes
    [authenticate_student] return
    [{'success': False, 'error': 'invalid credentials'}]. *)
Theorem make_request_by_status :
  (forall (self : SystemeCalculClient) (method endpoint : string)
          (data : option json) (token : option string) (params : option json)
          (w : World) (r : requests.Response),
      truthy_str (base_url self) = true ->
      requests.result (remote w (request_of self method endpoint data token params))
        = requests.Responded r ->
      (200 <= requests.status_code r < 300 ->
       _make_request self method endpoint data token params w
       = (Return (parsed_body r),
          answered (request_of self method endpoint data token params) w))
      /\ (400 <= requests.status_code r < 600 ->
          forall d : list (string * json),
            parsed_body r = JDict d ->
            _make_request self method endpoint data token params w
            = (Raise (SystemeCalculAPIError
                        {| message :=
                             if dict_has d "error" then dict_get d "error" JNull
                             else JStr ("HTTP " +:+ str_of_int (requests.status_code r));
                           status_code := Some (requests.status_code r);
                           response_data := Some (JDict d) |}),
               answered (request_of self method endpoint data token params) w)))
  /\ (forall (self : SystemeCalculClient) (email password : string) (w : World)
             (r : requests.Response),
         truthy_str (api_key self) = true ->
         truthy_str (base_url self) = true ->
         requests.result
           (remote w (request_of self "POST" "/auth/external-login"
                        (Some (login_data self email password)) None None))
           = requests.Responded r ->
         requests.status_code r = 401 ->
         requests.json_body r = Some (JDict [("error", JStr "invalid credentials")]) ->
         fst (authenticate_student self email password w)
         = Return (JDict [("success", JBool false);
                          ("error", JStr "invalid credentials")])).
Proof.
  split.
  - intros self method endpoint data token params w r Hurl Hres. split.
    + intros Hs. apply make_request_ok; [exact Hurl|exact Hres|].
      apply ok_2xx. exact Hs.
    + intros Hs d Hd.
      rewrite (make_request_not_ok self method endpoint data params token w Hurl r d Hres
                 (not_ok_4xx_5xx r Hs) Hd).
      destruct (dict_has d "error") eqn:Hhas.
      * rewrite (dict_get_present d "error" _ JNull Hhas). reflexivity.
      * rewrite (dict_get_absent d "error" _ Hhas). reflexivity.
  - intros self email password w r Hkey Hurl Hres Hs Hbody.
    assert (Hnok : requests.ok r = false) by (apply not_ok_4xx_5xx; lia).
    assert (Hd : parsed_body r = JDict [("error", JStr "invalid credentials")])
      by (unfold parsed_body; rewrite Hbody; reflexivity).
    pose proof (make_request_not_ok self "POST" "/auth/external-login"
                  (Some (login_data self email password)) None None w Hurl r _ Hres Hnok Hd)
      as Hsend.
    rewrite (authenticate_failed self w _ email password _ Hkey Hsend). reflexivity.
Qed.

Lemma make_request_by_status_witness :
  (truthy_str (base_url configured) = true
   /\ 200 <= 200 < 300
   /\ _make_request configured "GET" "/auth/me" None (Some "tok") None
        (fresh 0 (always 1 (json_response 200 (JDict [("id", JInt 1)]))))
      = (Return (JDict [("id", JInt 1)]),
         answered (request_of configured "GET" "/auth/me" None (Some "tok") None)
           (fresh 0 (always 1 (json_response 200 (JDict [("id", JInt 1)]))))))
  /\ (truthy_str (api_key configured) = true
      /\ fst (authenticate_student configured "a@b.com" "pw"
                (fresh 0 (always 1 (json_response 401
                                      (JDict [("error", JStr "invalid credentials")])))))
         = Return (JDict [("success", JBool false);
                          ("error", JStr "invalid credentials")])).
Proof.
  destruct make_request_by_status as [Hsend Hauth].
  split.
  - split; [reflexivity|]. split; [lia|].
    apply (Hsend configured "GET" "/auth/me" None (Some "tok") None
             (fresh 0 (always 1 (json_response 200 (JDict [("id", JInt 1)]))))
             {| requests.status_code := 200; requests.text := "";
                requests.json_body := Some (JDict [("id", JInt 1)]) |});
      [reflexivity | reflexivity | simpl; lia].
  - split; [reflexivity|].
    apply (Hauth configured "a@b.com" "pw"
             (fresh 0 (always 1 (json_response 401
                                   (JDict [("error", JStr "invalid credentials")]))))
             {| requests.status_code := 401; requests.text := "";
                requests.json_body :=
                  Some (JDict [("error", JStr "invalid credentials")]) |});
      reflexivity.
Defined.

(** C3, counterexample to the wording "absent or falsy": a 401 response
    whose body has an [error] entry that is the empty string makes
    [_make_request] raise with the empty string as message, where the
    specified message is ["HTTP 401"]. *)
Lemma make_request_empty_error_field :
  fst (_make_request configured "POST" "/auth/refresh" None (Some "tok") None
         (fresh 0 (always 1 empty_error_401)))
  = Raise (SystemeCalculAPIError
             {| message := JStr "";
                status_code := Some 401;
                response_data := Some (JDict [("error", JStr "")]) |})
  /\ message_as_specified [("error", JStr "")] 401 = JStr "HTTP 401"
  /\ JStr "" <> JStr "HTTP 401".
Proof.
  split; [reflexivity|]. split; [reflexivity|]. discriminate.
Qed.

(** *** Results of authenticate_student *)

(** How a call of [authenticate_student] with an API key can end. *)
Lemma authenticate_cases (self : SystemeCalculClient) (email password : string) (w : World) :
  truthy_str (api_key self) = true ->
  (exists d w', send_login self email password w = (Return (JDict d), w')
                /\ authenticate_student self email password w = (Return (auth_success d), w'))
  \/ (exists e w', send_login self email password w = (Raise (SystemeCalculAPIError e), w')
                   /\ authenticate_student self email password w
                      = (Return (failure (message e)), logged (login_failed email e) w'))
  \/ (exists o a w', authenticate_student self email password w
                     = (Raise (AttributeError o a), w')).
Proof.
  intros Hkey.
  destruct (send_login self email password w) as [[v|[e|o a]] w'] eqn:Hsend.
  - destruct v as [| | | | | |d];
      try (right; right; eexists _, _, w';
           apply (authenticate_no_dict self w w' email password _ Hkey Hsend);
           intros d; discriminate).
    left. exists d, w'. split; [reflexivity|].
    apply authenticate_succeeded; assumption.
  - right; left. exists e, w'. split; [reflexivity|].
    apply authenticate_failed; assumption.
  - right; right. exists o, a, w'. apply authenticate_attribute_error; assumption.
Qed.

Example authenticate_full_body :
  fst (authenticate_student configured "a@b.com" "pw"
         (fresh 0 (always 1 (json_response 200
            (JDict [("student", JDict [("id", JInt 1)]);
                    ("token", JStr "abc");
                    ("expiresIn", JStr "12h")])))))
  = Return (JDict [("success", JBool true);
                   ("student", JDict [("id", JInt 1)]);
                   ("token", JStr "abc");
                   ("expires_in", JStr "12h")]).
Proof. reflexivity. Qed.

Example authenticate_token_only :
  fst (authenticate_student configured "a@b.com" "pw"
         (fresh 0 (always 1 (json_response 200 (JDict [("token", JStr "abc")])))))
  = Return (JDict [("success", JBool true);
                   ("student", JNull);
                   ("token", JStr "abc");
                   ("expires_in", JStr "24h")]).
Proof. reflexivity. Qed.



(** C9: whatever [authenticate_student] returns is a dict of one of two
    shapes, the four success fields with [success] true, or [success]
    false with [error] alone; so no result has an [error] field next to
    [student], [token] or [expires_in]. *)
Theorem authenticate_result_shape :
  forall (self : SystemeCalculClient) (email password : string) (w w' : World) (result : json),
    authenticate_student self email password w = (Return result, w') ->
    ((exists student token expires_in : json,
         result = JDict [("success", JBool true);
                         ("student", student);
                         ("token", token);
                         ("expires_in", expires_in)])
     \/ (exists error : json,
            result = JDict [("success", JBool false); ("error", error)]))
    /\ (has_field result "error" = true ->
        has_field result "student" = false
        /\ has_field result "token" = false
        /\ has_field result "expires_in" = false)
    /\ (is_success result = true -> has_field result "error" = false).
Proof.
  intros self email password w w' result Hcall.
  assert (Hshape :
    (exists student token expires_in : json,
        result = JDict [("success", JBool true); ("student", student);
                        ("token", token); ("expires_in", expires_in)])
    \/ (exists error : json, result = JDict [("success", JBool false); ("error", error)])).
  { destruct (truthy_str (api_key self)) eqn:Hkey.
    - destruct (authenticate_cases self email password w Hkey)
        as [(d & w1 & _ & Hres) | [(e & w1 & _ & Hres) | (o & a & w1 & Hres)]];
        rewrite Hres in Hcall; inversion Hcall; subst; clear Hcall.
      + left. unfold auth_success. eauto.
      + right. unfold failure. eauto.
    - unfold authenticate_student in Hcall. rewrite Hkey in Hcall.
      inversion Hcall; subst. right. unfold failure. eauto. }
  split; [exact Hshape|].
  destruct Hshape as [(s & t & x & ->) | (m & ->)]; simpl; split;
    intros; try discriminate; auto.
Qed.

Lemma authenticate_result_shape_witness :
  authenticate_student no_api_key "a@b.com" "pw" (fresh 0 (always 1 requests.Timeout))
  = (Return (failure (JStr "API key not configured")), fresh 0 (always 1 requests.Timeout))
  /\ has_field (failure (JStr "API key not configured")) "error" = true
  /\ has_field (failure (JStr "API key not configured")) "token" = false.
Proof.
  split; [reflexivity|]. split; [reflexivity|].
  apply (authenticate_result_shape no_api_key "a@b.com" "pw"
           (fresh 0 (always 1 requests.Timeout)) (fresh 0 (always 1 requests.Timeout))
           (failure (JStr "API key not configured")));
    reflexivity.
Defined.

(** *** get_student_profile, by cache state and by how the fetch ends *)

Section Profile.

Variable self : SystemeCalculClient.
Variable token : string.
Variables w w' : World.

Local Abbreviation key := (cache_key_of token).

Lemma profile_hit :
  truthy (cache.live_value key w) = true ->
  get_student_profile self token w = (Return (cache.live_value key w), w).
Proof.
  intros Hhit. unfold get_student_profile, bind, cache.get. rewrite Hhit. reflexivity.
Qed.

Hypothesis Hmiss : truthy (cache.live_value key w) = false.

Lemma profile_fetched (v : json) :
  send_profile self token w = (Return v, w') ->
  get_student_profile self token w = (Return v, cache.stored key v 300 w').
Proof.
  intros Hsend. unfold get_student_profile, cache.get.
  unfold bind at 1. rewrite Hmiss.
  apply try_except_return. erewrite bind_return by exact Hsend. reflexivity.
Qed.

Lemma profile_failed_result (e : api_error) :
  send_profile self token w = (Raise (SystemeCalculAPIError e), w') ->
  get_student_profile self token w
  = (Return (failure (message e)), logged (profile_failed e) w').
Proof.
  intros Hsend. unfold get_student_profile, cache.get.
  unfold bind at 1. rewrite Hmiss.
  erewrite try_except_api_error; [reflexivity|]. apply bind_raise. exact Hsend.
Qed.

Lemma profile_attribute_error (o a : string) :
  send_profile self token w = (Raise (AttributeError o a), w') ->
  get_student_profile self token w = (Raise (AttributeError o a), w').
Proof.
  intros Hsend. unfold get_student_profile, cache.get.
  unfold bind at 1. rewrite Hmiss.
  apply try_except_attribute_error. apply bind_raise. exact Hsend.
Qed.

End Profile.

(** The transport step never touches the cache or the log, and sends
    at most one request. *)
Lemma make_request_frame (self : SystemeCalculClient) (method endpoint : string)
    (data : option json) (token : option string) (params : option json) (w : World) :
  let w' := snd (_make_request self method endpoint data token params w) in
  store w' = store w /\ log w' = log w
  /\ (sent w' = sent w
      \/ sent w' = (sent w ++ [request_of self method endpoint data token params])%list).
Proof.
  destruct (truthy_str (base_url self)) eqn:Hurl; simpl.
  - rewrite make_request_world by exact Hurl. simpl. auto.
  - rewrite make_request_no_url by exact Hurl. simpl. auto.
Qed.

(** A call that returns went through a configured base URL and sent
    exactly one request. *)
Lemma make_request_returned (self : SystemeCalculClient) (method endpoint : string)
    (data : option json) (token : option string) (params : option json) (w w' : World)
    (v : json) :
  _make_request self method endpoint data token params w = (Return v, w') ->
  w' = answered (request_of self method endpoint data token params) w.
Proof.
  intros Hsend.
  destruct (truthy_str (base_url self)) eqn:Hurl.
  - pose proof (make_request_world self method endpoint data params token w Hurl) as Hw.
    rewrite Hsend in Hw. exact Hw.
  - rewrite make_request_no_url in Hsend by exact Hurl. discriminate.
Qed.

(** The failure contract of [get_student_profile] for the error
    [_make_request] declares: when the cache has nothing to serve and
    [_make_request] raises a [SystemeCalculAPIError] [e],
    [get_student_profile] returns
    [{'success': False, 'error': e.message}] and the cache is as before;
    and whenever a call leaves the cache different, its fetch returned a
    value, which is what was stored (for 300 seconds) and returned. *)
Theorem profile_failure_not_cached :
  forall (self : SystemeCalculClient) (token : string) (w : World),
    (forall (e : api_error) (w' : World),
        truthy (cache.live_value (cache_key_of token) w) = false ->
        send_profile self token w = (Raise (SystemeCalculAPIError e), w') ->
        fst (get_student_profile self token w)
        = Return (JDict [("success", JBool false); ("error", message e)])
        /\ store (snd (get_student_profile self token w)) = store w)
    /\ (store (snd (get_student_profile self token w)) = store w
        \/ exists (v : json) (w' : World),
            truthy (cache.live_value (cache_key_of token) w) = false
            /\ send_profile self token w = (Return v, w')
            /\ get_student_profile self token w
               = (Return v, cache.stored (cache_key_of token) v 300 w')).
Proof.
  intros self token w.
  pose proof (make_request_frame self "GET" "/students/me/profile" None (Some token) None w)
    as (Hstore & _ & _).
  fold (send_profile self token) in Hstore.
  split.
  - intros e w' Hmiss Hsend.
    rewrite (profile_failed_result self token w w' Hmiss e Hsend).
    rewrite Hsend in Hstore. split; [reflexivity|exact Hstore].
  - destruct (truthy (cache.live_value (cache_key_of token) w)) eqn:Hhit.
    + left. rewrite (profile_hit self token w Hhit). reflexivity.
    + destruct (send_profile self token w) as [[v|[e|o a]] w'] eqn:Hsend.
      * right. exists v, w'. split; [reflexivity|]. split; [reflexivity|].
        apply profile_fetched; assumption.
      * left. rewrite (profile_failed_result self token w w' Hhit e Hsend). exact Hstore.
      * left. rewrite (profile_attribute_error self token w w' Hhit o a Hsend). exact Hstore.
Qed.

Lemma profile_failure_not_cached_witness :
  truthy (cache.live_value (cache_key_of "tok") (fresh 0 (always 30 requests.Timeout))) = false
  /\ send_profile configured "tok" (fresh 0 (always 30 requests.Timeout))
     = (Raise (api_error_of "Request timeout - API server not responding"),
        answered (request_of configured "GET" "/students/me/profile" None (Some "tok") None)
          (fresh 0 (always 30 requests.Timeout)))
  /\ fst (get_student_profile configured "tok" (fresh 0 (always 30 requests.Timeout)))
     = Return (JDict [("success", JBool false);
                      ("error", JStr "Request timeout - API server not responding")])
  /\ store (snd (get_student_profile configured "tok" (fresh 0 (always 30 requests.Timeout))))
     = ∅.
Proof.
  split; [reflexivity|]. split; [reflexivity|].
  apply (proj1 (profile_failure_not_cached configured "tok"
                  (fresh 0 (always 30 requests.Timeout)))
           {| message := JStr "Request timeout - API server not responding";
              status_code := None; response_data := None |}
           (answered (request_of configured "GET" "/students/me/profile" None (Some "tok") None)
              (fresh 0 (always 30 requests.Timeout))));
    reflexivity.
Defined.

(** C7, failing input: a fetch that fails with a 500 response whose
    JSON body is an array.  [response_data.get] (line 115) raises
    [AttributeError] inside [_make_request], no [except] clause catches
    it, and [get_student_profile] raises instead of returning
    [{'success': False, 'error': ...}]; the cache is left as it was.
    The same failure with a JSON object as body gives the failure
    dict. *)
Theorem profile_fetch_failure_raises :
  send_profile configured "tok" (fresh 0 (always 1 array_error_500))
  = (Raise (AttributeError "list" "get"),
     answered (request_of configured "GET" "/students/me/profile" None (Some "tok") None)
       (fresh 0 (always 1 array_error_500)))
  /\ get_student_profile configured "tok" (fresh 0 (always 1 array_error_500))
     = (Raise (AttributeError "list" "get"),
        answered (request_of configured "GET" "/students/me/profile" None (Some "tok") None)
          (fresh 0 (always 1 array_error_500)))
  /\ store (snd (get_student_profile configured "tok" (fresh 0 (always 1 array_error_500))))
     = ∅
  /\ fst (get_student_profile configured "tok"
            (fresh 0 (always 1 (json_response 500 (JDict [])))))
     = Return (JDict [("success", JBool false); ("error", JStr "HTTP 500")]).
Proof. repeat split. Qed.

(** *** refresh_token *)

Example refresh_token_example :
  fst (refresh_token configured "old"
         (fresh 0 (always 1 (json_response 200 (JDict [("token", JStr "new")])))))
  = Return (JStr "new")
  /\ fst (refresh_token configured "old" (fresh 0 (always 1 (json_response 200 (JDict [])))))
     = Return JNull
  /\ refresh_token configured "old" (fresh 0 (always 1 requests.ConnectionError))
     = (Return JNull,
        {| store := ∅; cull := (fun s => s); now := 1; remote := always 1 requests.ConnectionError;
           sent := [request_of configured "POST" "/auth/refresh" None (Some "old") None];
           log := [error_record "Failed to refresh token: "
                     (JStr "Connection error - Cannot reach API server")] |}).
Proof. repeat split. Qed.

(** The contract of [refresh_token] for a dict response and for the
    error [_make_request] declares: when [_make_request] returns the
    dict [response], [refresh_token] returns [response.get('token')], the new token when
    the response has one; when [_make_request] raises a
    [SystemeCalculAPIError] [e], whatever its cause, [refresh_token]
    logs "Failed to refresh token: " with [e.message] and returns
    [None]. *)
Theorem refresh_token_result :
  forall (self : SystemeCalculClient) (token : string) (w w' : World),
    (forall response : list (string * json),
        send_refresh self token w = (Return (JDict response), w') ->
        refresh_token self token w = (Return (dict_get response "token" JNull), w')
        /\ forall new_token : string,
            dict_get response "token" JNull = JStr new_token ->
            fst (refresh_token self token w) = Return (JStr new_token))
    /\ (forall e : api_error,
           send_refresh self token w = (Raise (SystemeCalculAPIError e), w') ->
           refresh_token self token w = (Return JNull, logged (refresh_failed e) w')
           /\ log (snd (refresh_token self token w))
              = (log w ++ [error_record "Failed to refresh token: " (message e)])%list).
Proof.
  intros self token w w'. split.
  - intros response Hsend.
    rewrite (refresh_succeeded self w w' token response Hsend).
    split; [reflexivity|]. intros new_token ->. reflexivity.
  - intros e Hsend.
    rewrite (refresh_failed_result self w w' token e Hsend).
    split; [reflexivity|]. simpl.
    pose proof (make_request_frame self "POST" "/auth/refresh" None (Some token) None w)
      as (_ & Hlog & _).
    fold (send_refresh self token) in Hlog. rewrite Hsend in Hlog. simpl in Hlog.
    rewrite Hlog. reflexivity.
Qed.

Lemma refresh_token_result_witness :
  (send_refresh configured "old"
     (fresh 0 (always 1 (json_response 200 (JDict [("token", JStr "new")]))))
   = (Return (JDict [("token", JStr "new")]),
      answered (request_of configured "POST" "/auth/refresh" None (Some "old") None)
        (fresh 0 (always 1 (json_response 200 (JDict [("token", JStr "new")])))))
   /\ fst (refresh_token configured "old"
             (fresh 0 (always 1 (json_response 200 (JDict [("token", JStr "new")])))))
      = Return (JStr "new"))
  /\ (send_refresh configured "old" (fresh 0 (always 30 requests.Timeout))
      = (Raise (api_error_of "Request timeout - API server not responding"),
         answered (request_of configured "POST" "/auth/refresh" None (Some "old") None)
           (fresh 0 (always 30 requests.Timeout)))
      /\ fst (refresh_token configured "old" (fresh 0 (always 30 requests.Timeout)))
         = Return JNull).
Proof.
  split.
  - split; [reflexivity|].
    refine (proj2 (proj1 (refresh_token_result configured "old"
                            (fresh 0 (always 1 (json_response 200
                                                  (JDict [("token", JStr "new")]))))
                            (answered (request_of configured "POST" "/auth/refresh" None
                                         (Some "old") None)
                               (fresh 0 (always 1 (json_response 200
                                                     (JDict [("token", JStr "new")]))))))
                     [("token", JStr "new")] _) "new" _); reflexivity.
  - split; [reflexivity|].
    pose proof (proj2 (refresh_token_result configured "old"
                         (fresh 0 (always 30 requests.Timeout))
                         (answered (request_of configured "POST" "/auth/refresh" None
                                      (Some "old") None)
                            (fresh 0 (always 30 requests.Timeout))))
                  {| message := JStr "Request timeout - API server not responding";
                     status_code := None; response_data := None |} eq_refl) as [H _].
    rewrite H. reflexivity.
Defined.

(** C8, failing input: a refresh that fails with a 500 response whose
    JSON body is an array.  [response_data.get] (line 115) raises
    [AttributeError] inside [_make_request], no [except] clause catches
    it, and [refresh_token] raises instead of returning [None], with
    nothing logged.  The same failure with a JSON object as body is
    logged and gives [None]. *)
Theorem refresh_failure_raises :
  send_refresh configured "old" (fresh 0 (always 1 array_error_500))
  = (Raise (AttributeError "list" "get"),
     answered (request_of configured "POST" "/auth/refresh" None (Some "old") None)
       (fresh 0 (always 1 array_error_500)))
  /\ refresh_token configured "old" (fresh 0 (always 1 array_error_500))
     = (Raise (AttributeError "list" "get"),
        answered (request_of configured "POST" "/auth/refresh" None (Some "old") None)
          (fresh 0 (always 1 array_error_500)))
  /\ log (snd (refresh_token configured "old" (fresh 0 (always 1 array_error_500)))) = []
  /\ fst (refresh_token configured "old" (fresh 0 (always 1 (json_response 500 (JDict [])))))
     = Return JNull
  /\ log (snd (refresh_token configured "old"
                 (fresh 0 (always 1 (json_response 500 (JDict []))))))
     = [error_record "Failed to refresh token: " (JStr "HTTP 500")].
Proof. repeat split. Qed.

(** *** No SystemeCalculAPIError passes an operation *)

Lemma logged_then_ret_returns {A} (r : logging.record) (a : A) (w : World) :
  exists a' w', bind (logger.emit r) (fun _ => ret a) w = (Return a', w').
Proof. eexists _, _. reflexivity. Qed.

Example verify_token_examples :
  fst (verify_token configured "tok" (fresh 0 (always 1 (json_response 200 (JDict []))))) = Return true
  /\ fst (verify_token configured "tok" (fresh 0 (always 30 requests.Timeout))) = Return false
  /\ fst (verify_token configured "tok" (fresh 0 (always 1 requests.ConnectionError))) = Return false
  /\ fst (verify_token configured "tok" (fresh 0 (always 1 (json_response 403 (JDict []))))) = Return false
  /\ fst (verify_token configured "tok" (fresh 0 (always 1 (json_response 500 (JList [])))))
     = Raise (AttributeError "list" "get").
Proof. repeat split. Qed.

(** C1, as the code has it: in all six operations every
    [SystemeCalculAPIError] that [_make_request] raises is caught and
    turned into the operation's failure value (a [success: False] dict,
    [False], or [None]), so none passes an operation's boundary.  The
    error for a missing base URL is one of them: without a base URL
    [verify_token] returns [False] and [refresh_token] logs and returns
    [None], and neither sends a request. *)
Theorem api_errors_are_caught :
  forall (self : SystemeCalculClient) (w : World),
    ((forall email password, no_api_error (authenticate_student self email password w))
     /\ (forall token, no_api_error (get_student_profile self token w))
     /\ (forall student_id token, no_api_error (get_student_formations self student_id token w))
     /\ (forall student_id token, no_api_error (get_student_schedule self student_id token w))
     /\ (forall token, no_api_error (verify_token self token w))
     /\ (forall token, no_api_error (refresh_token self token w)))
    /\ (forall (e : api_error) (w' : World),
           (forall email password,
               truthy_str (api_key self) = true ->
               send_login self email password w = (Raise (SystemeCalculAPIError e), w') ->
               fst (authenticate_student self email password w)
               = Return (JDict [("success", JBool false); ("error", message e)]))
           /\ (forall token,
                  truthy (cache.live_value (cache_key_of token) w) = false ->
                  send_profile self token w = (Raise (SystemeCalculAPIError e), w') ->
                  fst (get_student_profile self token w)
                  = Return (JDict [("success", JBool false); ("error", message e)]))
           /\ (forall student_id token,
                  send_formations self student_id token w
                  = (Raise (SystemeCalculAPIError e), w') ->
                  fst (get_student_formations self student_id token w)
                  = Return (JDict [("success", JBool false); ("error", message e);
                                   ("formations", JList [])]))
           /\ (forall student_id token,
                  send_schedule self student_id token w
                  = (Raise (SystemeCalculAPIError e), w') ->
                  fst (get_student_schedule self student_id token w)
                  = Return (JDict [("success", JBool false); ("error", message e);
                                   ("schedule", JList [])]))
           /\ (forall token,
                  send_verify self token w = (Raise (SystemeCalculAPIError e), w') ->
                  fst (verify_token self token w) = Return false)
           /\ (forall token,
                  send_refresh self token w = (Raise (SystemeCalculAPIError e), w') ->
                  fst (refresh_token self token w) = Return JNull))
    /\ (truthy_str (base_url self) = false ->
        forall token,
          verify_token self token w = (Return false, w)
          /\ refresh_token self token w = (Return JNull, logged (refresh_failed url_not_configured) w)).
Proof.
  intros self w. split; [|split].
  - repeat split; intros; unfold no_api_error.
    + unfold authenticate_student.
      destruct (negb (truthy_str (api_key self))); [intros e; discriminate|].
      apply try_except_catches. intros. apply logged_then_ret_returns.
    + unfold get_student_profile, cache.get. unfold bind at 1.
      destruct (truthy (cache.live_value (cache_key_of token) w)); [intros e; discriminate|].
      apply try_except_catches. intros. apply logged_then_ret_returns.
    + apply try_except_catches. intros. apply logged_then_ret_returns.
    + apply try_except_catches. intros. apply logged_then_ret_returns.
    + apply try_except_catches. intros. eexists _, _. reflexivity.
    + apply try_except_catches. intros. apply logged_then_ret_returns.
  - intros e w'. repeat split; intros.
    + erewrite authenticate_failed by eassumption. reflexivity.
    + erewrite profile_failed_result by eassumption. reflexivity.
    + erewrite formations_failed_result by eassumption. reflexivity.
    + erewrite schedule_failed_result by eassumption. reflexivity.
    + erewrite verify_failed by eassumption. reflexivity.
    + erewrite refresh_failed_result by eassumption. reflexivity.
  - intros Hurl token. split.
    + apply (verify_failed self w w token url_not_configured).
      apply make_request_no_url. exact Hurl.
    + apply (refresh_failed_result self w w token url_not_configured).
      apply make_request_no_url. exact Hurl.
Qed.

Lemma api_errors_are_caught_witness :
  truthy_str (base_url no_base_url) = false
  /\ verify_token no_base_url "tok" (fresh 0 (always 1 requests.Timeout))
     = (Return false, fresh 0 (always 1 requests.Timeout))
  /\ refresh_token no_base_url "tok" (fresh 0 (always 1 requests.Timeout))
     = (Return JNull,
        logged (refresh_failed url_not_configured) (fresh 0 (always 1 requests.Timeout))).
Proof.
  split; [reflexivity|].
  apply (proj2 (proj2 (api_errors_are_caught no_base_url
                         (fresh 0 (always 1 requests.Timeout))))).
  reflexivity.
Defined.

(** C1, counterexample to "propagates out of verifyToken and
    refreshToken": without a base URL [_make_request] raises the
    "API URL not configured" error, and [verify_token] returns [False]
    and [refresh_token] returns [None] instead of raising. *)
Lemma missing_base_url_does_not_propagate :
  _make_request no_base_url "GET" "/auth/me" None (Some "tok") None
    (fresh 0 (always 1 requests.Timeout))
  = (Raise (api_error_of "API URL not configured"), fresh 0 (always 1 requests.Timeout))
  /\ fst (verify_token no_base_url "tok" (fresh 0 (always 1 requests.Timeout))) = Return false
  /\ fst (refresh_token no_base_url "tok" (fresh 0 (always 1 requests.Timeout))) = Return JNull.
Proof. repeat split. Qed.

(** *** The profile cache *)

Lemma live_value_stored (key : string) (v : json) (dt : Z)
    (remote' : requests.Request -> requests.Reply) (w : World) :
  dt < 300 ->
  cache.live_value key (later dt remote' (cache.stored key v 300 w)) = v.
Proof.
  intros Hdt. unfold cache.live_value, later, cache.stored. simpl.
  rewrite lookup_insert_eq.
  destruct (now w + dt <? now w + 300) eqn:Hlt; [reflexivity|].
  apply Z.ltb_ge in Hlt. lia.
Qed.

Lemma live_value_expired (key : string) (v : json) (dt : Z)
    (remote' : requests.Request -> requests.Reply) (w : World) :
  300 <= dt ->
  cache.live_value key (later dt remote' (cache.stored key v 300 w)) = JNull.
Proof.
  intros Hdt. unfold cache.live_value, later, cache.stored. simpl.
  rewrite lookup_insert_eq.
  destruct (now w + dt <? now w + 300) eqn:Hlt; [|reflexivity].
  apply Z.ltb_lt in Hlt. lia.
Qed.

(** A fetch followed, less than 300 seconds later, by a call whose
    token has the same cache key. *)
Lemma profile_fetch_then_hit (self : SystemeCalculClient) (token1 token2 : string)
    (w w1 : World) (v : json) (dt : Z) (remote' : requests.Request -> requests.Reply) :
  cache_key_of token1 = cache_key_of token2 ->
  truthy (cache.live_value (cache_key_of token1) w) = false ->
  send_profile self token1 w = (Return v, w1) ->
  truthy v = true ->
  dt < 300 ->
  get_student_profile self token1 w = (Return v, cache.stored (cache_key_of token1) v 300 w1)
  /\ get_student_profile self token2
       (later dt remote' (cache.stored (cache_key_of token1) v 300 w1))
     = (Return v, later dt remote' (cache.stored (cache_key_of token1) v 300 w1))
  /\ sent (later dt remote' (cache.stored (cache_key_of token1) v 300 w1))
     = (sent w ++ [request_of self "GET" "/students/me/profile" None (Some token1) None])%list.
Proof.
  intros Hkey Hmiss Hsend Hv Hdt. split; [|split].
  - apply profile_fetched; assumption.
  - pose proof (live_value_stored (cache_key_of token1) v dt remote' w1 Hdt) as Hlive.
    rewrite Hkey in Hlive at 1.
    rewrite profile_hit; rewrite Hlive; [reflexivity|exact Hv].
  - apply make_request_returned in Hsend. subst w1. reflexivity.
Qed.

Example profile_cached_example :
  get_student_profile configured "tok"
    (later 299 (profile_is (JDict [("name", JStr "new")]))
       (snd (get_student_profile configured "tok"
               (fresh 0 (profile_is (JDict [("name", JStr "old")]))))))
  = (Return (JDict [("name", JStr "old")]),
     later 299 (profile_is (JDict [("name", JStr "new")]))
       (snd (get_student_profile configured "tok"
               (fresh 0 (profile_is (JDict [("name", JStr "old")]))))))
  /\ fst (get_student_profile configured "tok"
            (later 300 (profile_is (JDict [("name", JStr "new")]))
               (snd (get_student_profile configured "tok"
                       (fresh 0 (profile_is (JDict [("name", JStr "old")])))))))
     = Return (JDict [("name", JStr "new")]).
Proof. split; vm_compute; reflexivity. Qed.

(** C2, as the code has it: whenever the cache holds a live entry with
    a truthy value under the token's key, [get_student_profile] returns
    that value and leaves the world as it was (no request is sent); so
    after a first call that fetched a truthy value, a second call with
    the same token less than 300 seconds later returns that same value
    whatever the remote side would answer by then, and the two calls
    together sent exactly one request. *)
Theorem profile_served_from_cache :
  forall (self : SystemeCalculClient) (token : string) (w : World),
    (truthy (cache.live_value (cache_key_of token) w) = true ->
     get_student_profile self token w = (Return (cache.live_value (cache_key_of token) w), w))
    /\ (forall (w1 : World) (v : json) (dt : Z) (remote' : requests.Request -> requests.Reply),
           truthy (cache.live_value (cache_key_of token) w) = false ->
           send_profile self token w = (Return v, w1) ->
           truthy v = true ->
           0 <= dt < 300 ->
           get_student_profile self token w
           = (Return v, cache.stored (cache_key_of token) v 300 w1)
           /\ get_student_profile self token
                (later dt remote' (cache.stored (cache_key_of token) v 300 w1))
              = (Return v, later dt remote' (cache.stored (cache_key_of token) v 300 w1))
           /\ sent (snd (get_student_profile self token
                           (later dt remote' (cache.stored (cache_key_of token) v 300 w1))))
              = (sent w ++ [request_of self "GET" "/students/me/profile"
                              None (Some token) None])%list).
Proof.
  intros self token w. split.
  - apply profile_hit.
  - intros w1 v dt remote' Hmiss Hsend Hv [_ Hdt].
    destruct (profile_fetch_then_hit self token token w w1 v dt remote'
                eq_refl Hmiss Hsend Hv Hdt) as (H1 & H2 & H3).
    split; [exact H1|]. split; [exact H2|]. rewrite H2. exact H3.
Qed.

Lemma profile_served_from_cache_witness :
  truthy (cache.live_value (cache_key_of "tok")
            (fresh 0 (profile_is (JDict [("name", JStr "old")])))) = false
  /\ truthy (JDict [("name", JStr "old")]) = true
  /\ 0 <= 299 < 300
  /\ get_student_profile configured "tok"
       (later 299 (profile_is (JDict [("name", JStr "new")]))
          (cache.stored (cache_key_of "tok") (JDict [("name", JStr "old")]) 300
             (answered (request_of configured "GET" "/students/me/profile"
                          None (Some "tok") None)
                (fresh 0 (profile_is (JDict [("name", JStr "old")]))))))
     = (Return (JDict [("name", JStr "old")]),
        later 299 (profile_is (JDict [("name", JStr "new")]))
          (cache.stored (cache_key_of "tok") (JDict [("name", JStr "old")]) 300
             (answered (request_of configured "GET" "/students/me/profile"
                          None (Some "tok") None)
                (fresh 0 (profile_is (JDict [("name", JStr "old")])))))).
Proof.
  split; [reflexivity|]. split; [reflexivity|]. split; [lia|].
  apply (proj2 (profile_served_from_cache configured "tok"
                  (fresh 0 (profile_is (JDict [("name", JStr "old")]))))
           (answered (request_of configured "GET" "/students/me/profile" None (Some "tok") None)
              (fresh 0 (profile_is (JDict [("name", JStr "old")]))))
           (JDict [("name", JStr "old")]) 299 (profile_is (JDict [("name", JStr "new")])));
    [reflexivity | reflexivity | reflexivity | lia].
Defined.

(** C2, counterexample: a first call fetches the empty JSON object and
    stores it; ten seconds later the entry is live, and yet a second
    call with the same token sends a second request and returns what
    the remote side answers now. *)
Lemma empty_profile_is_fetched_again :
  fst (get_student_profile configured "tok" (fresh 0 (profile_is (JDict [])))) = Return (JDict [])
  /\ store after_empty_profile !! cache_key_of "tok" = Some (JDict [], 301)
  /\ now (later 10 (profile_is (JDict [("name", JStr "Ada")])) after_empty_profile) = 11
  /\ length (sent after_empty_profile) = 1%nat
  /\ fst (get_student_profile configured "tok"
            (later 10 (profile_is (JDict [("name", JStr "Ada")])) after_empty_profile))
     = Return (JDict [("name", JStr "Ada")])
  /\ length (sent (snd (get_student_profile configured "tok"
                          (later 10 (profile_is (JDict [("name", JStr "Ada")]))
                             after_empty_profile)))) = 2%nat.
Proof. repeat split; vm_compute; reflexivity. Qed.

(** *** Tokens with a common 20-character prefix *)

Example cache_key_collision :
  cache_key_of alice_token = "student_profile_eyJhbGciOiJIUzI1NiJ9"
  /\ cache_key_of bob_token = cache_key_of alice_token
  /\ String.eqb alice_token bob_token = false.
Proof. repeat split. Qed.

Example bob_reads_alice_profile :
  get_student_profile configured bob_token
    (later 60 (profile_is (JDict [("name", JStr "Bob")]))
       (snd (get_student_profile configured alice_token
               (fresh 0 (profile_is (JDict [("name", JStr "Alice")]))))))
  = (Return (JDict [("name", JStr "Alice")]),
     later 60 (profile_is (JDict [("name", JStr "Bob")]))
       (snd (get_student_profile configured alice_token
               (fresh 0 (profile_is (JDict [("name", JStr "Alice")])))))).
Proof. vm_compute; reflexivity. Qed.

(** C10, as the code has it: for two distinct tokens with the same
    first 20 characters the cache keys are equal, and after a call with
    the first token that fetched a truthy payload, a call with the
    second token less than 300 seconds later returns the first token's
    payload and sends no request. *)
Theorem profile_cache_key_collision :
  forall (self : SystemeCalculClient) (token1 token2 : string) (w w1 : World) (v : json)
         (dt : Z) (remote' : requests.Request -> requests.Reply),
    String.eqb token1 token2 = false ->
    str_prefix 20 token1 = str_prefix 20 token2 ->
    truthy (cache.live_value (cache_key_of token1) w) = false ->
    send_profile self token1 w = (Return v, w1) ->
    truthy v = true ->
    0 <= dt < 300 ->
    cache_key_of token1 = cache_key_of token2
    /\ get_student_profile self token1 w
       = (Return v, cache.stored (cache_key_of token1) v 300 w1)
    /\ get_student_profile self token2
         (later dt remote' (cache.stored (cache_key_of token1) v 300 w1))
       = (Return v, later dt remote' (cache.stored (cache_key_of token1) v 300 w1)).
Proof.
  intros self token1 token2 w w1 v dt remote' _ Hprefix Hmiss Hsend Hv [_ Hdt].
  assert (Hkey : cache_key_of token1 = cache_key_of token2)
    by (unfold cache_key_of; rewrite Hprefix; reflexivity).
  destruct (profile_fetch_then_hit self token1 token2 w w1 v dt remote'
              Hkey Hmiss Hsend Hv Hdt) as (H1 & H2 & _).
  auto.
Qed.

Lemma profile_cache_key_collision_witness :
  String.eqb alice_token bob_token = false
  /\ str_prefix 20 alice_token = str_prefix 20 bob_token
  /\ get_student_profile configured bob_token
       (later 60 (profile_is (JDict [("name", JStr "Bob")]))
          (cache.stored (cache_key_of alice_token) (JDict [("name", JStr "Alice")]) 300
             (answered (request_of configured "GET" "/students/me/profile"
                          None (Some alice_token) None)
                (fresh 0 (profile_is (JDict [("name", JStr "Alice")]))))))
     = (Return (JDict [("name", JStr "Alice")]),
        later 60 (profile_is (JDict [("name", JStr "Bob")]))
          (cache.stored (cache_key_of alice_token) (JDict [("name", JStr "Alice")]) 300
             (answered (request_of configured "GET" "/students/me/profile"
                          None (Some alice_token) None)
                (fresh 0 (profile_is (JDict [("name", JStr "Alice")])))))).
Proof.
  split; [reflexivity|]. split; [reflexivity|].
  apply (profile_cache_key_collision configured alice_token bob_token
           (fresh 0 (profile_is (JDict [("name", JStr "Alice")])))
           (answered (request_of configured "GET" "/students/me/profile"
                        None (Some alice_token) None)
              (fresh 0 (profile_is (JDict [("name", JStr "Alice")]))))
           (JDict [("name", JStr "Alice")]) 60 (profile_is (JDict [("name", JStr "Bob")])));
    [reflexivity | reflexivity | reflexivity | reflexivity | reflexivity | lia].
Defined.

(** C10, counterexample: the first token's fetch yields the empty JSON
    object; a minute later, with the entry live under the shared key,
    the call with the second token sends its own request and returns
    the second token's payload. *)
Lemma empty_profile_is_not_shared :
  String.eqb alice_token bob_token = false
  /\ str_prefix 20 alice_token = str_prefix 20 bob_token
  /\ fst (get_student_profile configured alice_token (fresh 0 (profile_is (JDict []))))
     = Return (JDict [])
  /\ store after_empty_alice_profile !! cache_key_of bob_token = Some (JDict [], 301)
  /\ now (later 60 (profile_is (JDict [("name", JStr "Bob")])) after_empty_alice_profile) = 61
  /\ fst (get_student_profile configured bob_token
            (later 60 (profile_is (JDict [("name", JStr "Bob")])) after_empty_alice_profile))
     = Return (JDict [("name", JStr "Bob")])
  /\ length (sent (snd (get_student_profile configured bob_token
                          (later 60 (profile_is (JDict [("name", JStr "Bob")]))
                             after_empty_alice_profile)))) = 2%nat.
Proof. repeat split; vm_compute; reflexivity. Qed.

(** *** When every body is a JSON object, every operation returns *)

Section ObjectBodies.

Variable self : SystemeCalculClient.
Variable w : World.
Hypothesis Hbodies : object_bodies w.

(** Under [object_bodies] the transport step returns a dict or raises
    its own error. *)
Lemma make_request_dict_or_api_error (method endpoint : string)
    (data : option json) (token : option string) (params : option json) :
  (exists d w', _make_request self method endpoint data token params w = (Return (JDict d), w'))
  \/ (exists e w', _make_request self method endpoint data token params w
                   = (Raise (SystemeCalculAPIError e), w')).
Proof.
  destruct (make_request_cases self method endpoint data token params w)
    as [(r & Hres & Hsend) | [Herr | (r & Hres & Hno & _)]].
  - destruct (Hbodies _ r Hres) as [d Hd]. rewrite Hd in Hsend. left. eauto.
  - right. exact Herr.
  - destruct (Hbodies _ r Hres) as [d Hd]. exfalso. exact (Hno d Hd).
Qed.

Lemma authenticate_returns (email password : string) :
  returns (authenticate_student self email password w).
Proof.
  destruct (truthy_str (api_key self)) eqn:Hkey.
  - destruct (make_request_dict_or_api_error "POST" "/auth/external-login"
                (Some (login_data self email password)) None None)
      as [(d & w' & Hsend) | (e & w' & Hsend)].
    + rewrite (authenticate_succeeded self w w' email password d Hkey Hsend).
      eexists. reflexivity.
    + rewrite (authenticate_failed self w w' email password e Hkey Hsend).
      eexists. reflexivity.
  - unfold authenticate_student. rewrite Hkey. eexists. reflexivity.
Qed.

Lemma profile_returns (token : string) :
  returns (get_student_profile self token w).
Proof.
  destruct (truthy (cache.live_value (cache_key_of token) w)) eqn:Hhit.
  - rewrite (profile_hit self token w Hhit). eexists. reflexivity.
  - destruct (make_request_dict_or_api_error "GET" "/students/me/profile"
                None (Some token) None)
      as [(d & w' & Hsend) | (e & w' & Hsend)].
    + rewrite (profile_fetched self token w w' Hhit _ Hsend). eexists. reflexivity.
    + rewrite (profile_failed_result self token w w' Hhit e Hsend). eexists. reflexivity.
Qed.

Lemma formations_returns (student_id : Z) (token : string) :
  returns (get_student_formations self student_id token w).
Proof.
  destruct (make_request_dict_or_api_error "GET"
              ("/students/" +:+ str_of_int student_id +:+ "/formations")
              None (Some token) None)
    as [(d & w' & Hsend) | (e & w' & Hsend)].
  - exists (JDict d). unfold get_student_formations.
    erewrite try_except_return; [reflexivity|].
    erewrite bind_return by exact Hsend. reflexivity.
  - rewrite (formations_failed_result self w w' student_id token e Hsend).
    eexists. reflexivity.
Qed.

Lemma schedule_returns (student_id : Z) (token : string) :
  returns (get_student_schedule self student_id token w).
Proof.
  destruct (make_request_dict_or_api_error "GET"
              ("/students/" +:+ str_of_int student_id +:+ "/schedule")
              None (Some token) None)
    as [(d & w' & Hsend) | (e & w' & Hsend)].
  - exists (JDict d). unfold get_student_schedule.
    erewrite try_except_return; [reflexivity|].
    erewrite bind_return by exact Hsend. reflexivity.
  - rewrite (schedule_failed_result self w w' student_id token e Hsend).
    eexists. reflexivity.
Qed.

Lemma verify_returns (token : string) :
  returns (verify_token self token w).
Proof.
  destruct (make_request_dict_or_api_error "GET" "/auth/me" None (Some token) None)
    as [(d & w' & Hsend) | (e & w' & Hsend)].
  - rewrite (verify_succeeded self w w' token _ Hsend). eexists. reflexivity.
  - rewrite (verify_failed self w w' token e Hsend). eexists. reflexivity.
Qed.

Lemma refresh_returns (token : string) :
  returns (refresh_token self token w).
Proof.
  destruct (make_request_dict_or_api_error "POST" "/auth/refresh" None (Some token) None)
    as [(d & w' & Hsend) | (e & w' & Hsend)].
  - rewrite (refresh_succeeded self w w' token d Hsend). eexists. reflexivity.
  - rewrite (refresh_failed_result self w w' token e Hsend). eexists. reflexivity.
Qed.

End ObjectBodies.

(** ** Further properties of the client *)

(** *** Slashes at the joint *)

Lemma rstrip_slash_slashes (n : nat) : rstrip_slash (slashes n) = "".
Proof.
  induction n as [|n IH]; simpl; [reflexivity|]. rewrite IH. reflexivity.
Qed.

Lemma rstrip_slash_app_slashes (s : string) (n : nat) :
  rstrip_slash (s +:+ slashes n) = rstrip_slash s.
Proof.
  induction s as [|c rest IH].
  - rewrite append_empty. apply rstrip_slash_slashes.
  - rewrite append_String. simpl. rewrite IH. reflexivity.
Qed.

Lemma lstrip_slash_slashes_app (m : nat) (s : string) :
  lstrip_slash (slashes m +:+ s) = lstrip_slash s.
Proof.
  induction m as [|m IH]; [reflexivity|].
  simpl slashes. rewrite append_String. simpl. exact IH.
Qed.

Lemma rstrip_slash_fixed (s : string) :
  ends_with_slash s = false -> rstrip_slash s = s.
Proof.
  induction s as [|c rest IH]; [reflexivity|].
  intros Hend. simpl. destruct rest as [|c' rest'].
  - simpl in *. rewrite Hend. reflexivity.
  - rewrite IH by exact Hend. reflexivity.
Qed.

Lemma make_request_same (self1 self2 : SystemeCalculClient) (method endpoint1 endpoint2 : string)
    (data : option json) (token : option string) (params : option json) (w : World) :
  truthy_str (base_url self1) = truthy_str (base_url self2) ->
  target_url (default "" (base_url self1)) endpoint1
  = target_url (default "" (base_url self2)) endpoint2 ->
  timeout self1 = timeout self2 ->
  _make_request self1 method endpoint1 data token params w
  = _make_request self2 method endpoint2 data token params w.
Proof.
  intros Htruthy Hurl Htimeout. unfold _make_request.
  rewrite Htruthy, Hurl, Htimeout. reflexivity.
Qed.

(** X1: slashes at the joint do not matter.  The target URL is the
    same however many slashes the base URL ends with and the endpoint
    starts with, and stripping is idempotent.  So [_make_request] does
    the same whatever the number of leading slashes of the endpoint,
    and, for a client whose base URL is not empty, whatever the number
    of trailing slashes of the base URL.  (An empty base URL counts as
    not configured, and ["/"] does not.) *)
Theorem target_url_ignores_joint_slashes :
  forall (base endpoint : string) (n m : nat),
    target_url (base +:+ slashes n) (slashes m +:+ endpoint) = target_url base endpoint
    /\ rstrip_slash (rstrip_slash base) = rstrip_slash base
    /\ lstrip_slash (lstrip_slash endpoint) = lstrip_slash endpoint
    /\ (forall (self : SystemeCalculClient) (method : string) (data : option json)
               (token : option string) (params : option json) (w : World),
           _make_request self method (slashes m +:+ endpoint) data token params w
           = _make_request self method endpoint data token params w)
    /\ (String.eqb base "" = false ->
        forall (self : SystemeCalculClient) (method : string) (data : option json)
               (token : option string) (params : option json) (w : World),
          _make_request (with_base_url (base +:+ slashes n) self)
            method (slashes m +:+ endpoint) data token params w
          = _make_request (with_base_url base self) method endpoint data token params w).
Proof.
  intros base endpoint n m. split; [|split; [|split; [|split]]].
  - unfold target_url. rewrite rstrip_slash_app_slashes, lstrip_slash_slashes_app. reflexivity.
  - apply rstrip_slash_fixed. apply rstrip_slash_spec.
  - destruct (lstrip_slash_spec endpoint) as [_ Hs].
    destruct (lstrip_slash endpoint) as [|c rest]; [reflexivity|].
    simpl in *. rewrite Hs. reflexivity.
  - intros self method data token params w.
    unfold _make_request, target_url. rewrite lstrip_slash_slashes_app. reflexivity.
  - intros Hbase self method data token params w.
    apply make_request_same.
    + destruct base as [|c rest]; [discriminate|]. reflexivity.
    + simpl. unfold target_url.
      rewrite rstrip_slash_app_slashes, lstrip_slash_slashes_app. reflexivity.
    + reflexivity.
Qed.

Lemma target_url_ignores_joint_slashes_witness :
  String.eqb "https://api.example.com" "" = false
  /\ _make_request (with_base_url ("https://api.example.com" +:+ slashes 2) configured)
       "GET" (slashes 3 +:+ "auth/me") None (Some "tok") None
       (fresh 0 (always 1 requests.Timeout))
     = _make_request (with_base_url "https://api.example.com" configured)
         "GET" "auth/me" None (Some "tok") None (fresh 0 (always 1 requests.Timeout)).
Proof.
  split; [reflexivity|].
  apply (proj2 (proj2 (proj2 (proj2
           (target_url_ignores_joint_slashes "https://api.example.com" "auth/me" 2 3))))).
  reflexivity.
Defined.

Example empty_and_slash_base_url :
  fst (_make_request (with_base_url "" configured) "GET" "auth/me" None None None
         (fresh 0 (always 1 (json_response 200 (JDict [])))))
  = Raise (api_error_of "API URL not configured")
  /\ sent (snd (_make_request (with_base_url "/" configured) "GET" "auth/me" None None None
                  (fresh 0 (always 1 (json_response 200 (JDict []))))))
     = [request_of (with_base_url "/" configured) "GET" "auth/me" None None None]
  /\ requests.url (request_of (with_base_url "/" configured) "GET" "auth/me" None None None)
     = "/auth/me".
Proof. repeat split. Qed.

(** *** Cache keys *)

Lemma append_inj_l (p a b : string) : p +:+ a = p +:+ b -> a = b.
Proof.
  induction p as [|c p IH]; [intros H; exact H|].
  rewrite !append_String. intros H. inversion H. auto.
Qed.

Lemma str_prefix_short (n : nat) (s : string) :
  (String.length s <= n)%nat -> str_prefix n s = s.
Proof.
  revert n. induction s as [|c rest IH]; intros n Hlen.
  - destruct n; reflexivity.
  - destruct n as [|n]; simpl in Hlen; [lia|].
    simpl. rewrite IH by lia. reflexivity.
Qed.

Lemma str_prefix_length (n : nat) (s : string) :
  (String.length (str_prefix n s) <= n)%nat.
Proof.
  revert s. induction n as [|n IH]; intros s; [simpl; lia|].
  destruct s as [|c rest]; simpl; [lia|]. specialize (IH rest). lia.
Qed.

(** X2: two tokens have the same cache key exactly when their first 20
    characters agree; so tokens of at most 20 characters never share a
    key unless they are equal, and the part of a key after its fixed
    prefix is never longer than 20 characters. *)
Theorem cache_key_by_prefix :
  forall token1 token2 : string,
    (cache_key_of token1 = cache_key_of token2
     <-> str_prefix 20 token1 = str_prefix 20 token2)
    /\ ((String.length token1 <= 20)%nat -> (String.length token2 <= 20)%nat ->
        cache_key_of token1 = cache_key_of token2 -> token1 = token2)
    /\ (String.length (cache_key_of token1) <= 36)%nat.
Proof.
  intros token1 token2.
  assert (Hiff : cache_key_of token1 = cache_key_of token2
                 <-> str_prefix 20 token1 = str_prefix 20 token2).
  { unfold cache_key_of. split.
    - apply append_inj_l.
    - intros ->. reflexivity. }
  split; [exact Hiff|]. split.
  - intros H1 H2 Hkey. apply Hiff in Hkey.
    rewrite !str_prefix_short in Hkey by assumption. exact Hkey.
  - unfold cache_key_of. pose proof (str_prefix_length 20 token1) as Hlen.
    change (String.length ("student_profile_" +:+ str_prefix 20 token1))
      with (16 + String.length (str_prefix 20 token1))%nat.
    lia.
Qed.

Lemma cache_key_by_prefix_witness :
  (String.length "short-a" <= 20)%nat /\ (String.length "short-b" <= 20)%nat
  /\ (cache_key_of "short-a" = cache_key_of "short-a" -> "short-a" = "short-a").
Proof.
  split; [simpl; lia|]. split; [simpl; lia|].
  apply (proj1 (proj2 (cache_key_by_prefix "short-a" "short-a"))); simpl; lia.
Defined.

(** *** What one call sends *)

Lemma try_except_bind {A B} (m : M A) (k : A -> M B) (handler : api_error -> M B) (w : World) :
  try_except (bind m k) handler w
  = match m w with
    | (Return a, w1) => try_except (k a) handler w1
    | (Raise (SystemeCalculAPIError e), w1) => handler e w1
    | (Raise e, w1) => (Raise e, w1)
    end.
Proof.
  unfold try_except, bind. destruct (m w) as [[a|[e|o a]] w1]; reflexivity.
Qed.

(** The world the transport step leaves: one request further when a
    base URL is configured, untouched otherwise. *)
Lemma make_request_world_eq (self : SystemeCalculClient) (method endpoint : string)
    (data : option json) (token : option string) (params : option json) (w : World) :
  snd (_make_request self method endpoint data token params w)
  = if truthy_str (base_url self)
    then answered (request_of self method endpoint data token params) w
    else w.
Proof.
  destruct (truthy_str (base_url self)) eqn:Hurl.
  - apply make_request_world. exact Hurl.
  - rewrite make_request_no_url by exact Hurl. reflexivity.
Qed.

Section OneCall.

Variable self : SystemeCalculClient.
Variable w : World.

Lemma login_world (email password : string) :
  truthy_str (api_key self) = true ->
  let w' := snd (authenticate_student self email password w) in
  let w1 := snd (send_login self email password w) in
  w' = w1
  \/ exists e, send_login self email password w = (Raise (SystemeCalculAPIError e), w1)
               /\ w' = logged (login_failed email e) w1.
Proof.
  intros Hkey. simpl.
  destruct (send_login self email password w) as [[v|[e|o a]] w1] eqn:Hsend; simpl.
  - left.
    assert (Hcase : (exists d, v = JDict d) \/ (forall d, v <> JDict d))
      by (destruct v; eauto; right; intros d'; discriminate).
    destruct Hcase as [[d ->] | Hno].
    + rewrite (authenticate_succeeded self w w1 email password d Hkey Hsend). reflexivity.
    + rewrite (authenticate_no_dict self w w1 email password v Hkey Hsend Hno). reflexivity.
  - right. exists e. split; [reflexivity|].
    rewrite (authenticate_failed self w w1 email password e Hkey Hsend). reflexivity.
  - left. rewrite (authenticate_attribute_error self w w1 email password o a Hkey Hsend).
    reflexivity.
Qed.

Lemma profile_world (token : string) :
  truthy (cache.live_value (cache_key_of token) w) = false ->
  let w' := snd (get_student_profile self token w) in
  let w1 := snd (send_profile self token w) in
  (exists v, send_profile self token w = (Return v, w1)
             /\ w' = cache.stored (cache_key_of token) v 300 w1)
  \/ (exists e, send_profile self token w = (Raise (SystemeCalculAPIError e), w1)
                /\ w' = logged (profile_failed e) w1)
  \/ (exists o a, send_profile self token w = (Raise (AttributeError o a), w1) /\ w' = w1).
Proof.
  intros Hmiss. simpl.
  destruct (send_profile self token w) as [[v|[e|o a]] w1] eqn:Hsend; simpl.
  - left. exists v. split; [reflexivity|].
    rewrite (profile_fetched self token w w1 Hmiss v Hsend). reflexivity.
  - right; left. exists e. split; [reflexivity|].
    rewrite (profile_failed_result self token w w1 Hmiss e Hsend). reflexivity.
  - right; right. exists o, a. split; [reflexivity|].
    rewrite (profile_attribute_error self token w w1 Hmiss o a Hsend). reflexivity.
Qed.

Lemma formations_world (student_id : Z) (token : string) :
  let w' := snd (get_student_formations self student_id token w) in
  let w1 := snd (send_formations self student_id token w) in
  w' = w1
  \/ exists e, send_formations self student_id token w = (Raise (SystemeCalculAPIError e), w1)
               /\ w' = logged (formations_failed student_id e) w1.
Proof.
  simpl. unfold get_student_formations, send_formations. rewrite try_except_bind.
  destruct (_make_request self "GET" ("/students/" +:+ str_of_int student_id +:+ "/formations")
              None (Some token) None w) as [[v|[e|o a]] w1] eqn:Hsend; simpl.
  - left. reflexivity.
  - right. exists e. split; reflexivity.
  - left. reflexivity.
Qed.

Lemma schedule_world (student_id : Z) (token : string) :
  let w' := snd (get_student_schedule self student_id token w) in
  let w1 := snd (send_schedule self student_id token w) in
  w' = w1
  \/ exists e, send_schedule self student_id token w = (Raise (SystemeCalculAPIError e), w1)
               /\ w' = logged (schedule_failed student_id e) w1.
Proof.
  simpl. unfold get_student_schedule, send_schedule. rewrite try_except_bind.
  destruct (_make_request self "GET" ("/students/" +:+ str_of_int student_id +:+ "/schedule")
              None (Some token) None w) as [[v|[e|o a]] w1] eqn:Hsend; simpl.
  - left. reflexivity.
  - right. exists e. split; reflexivity.
  - left. reflexivity.
Qed.

Lemma verify_world (token : string) :
  snd (verify_token self token w) = snd (send_verify self token w).
Proof.
  unfold verify_token, send_verify. rewrite try_except_bind.
  destruct (_make_request self "GET" "/auth/me" None (Some token) None w)
    as [[v|[e|o a]] w1]; reflexivity.
Qed.

Lemma refresh_world (token : string) :
  let w' := snd (refresh_token self token w) in
  let w1 := snd (send_refresh self token w) in
  w' = w1
  \/ exists e, send_refresh self token w = (Raise (SystemeCalculAPIError e), w1)
               /\ w' = logged (refresh_failed e) w1.
Proof.
  simpl. unfold refresh_token, send_refresh. rewrite try_except_bind.
  destruct (_make_request self "POST" "/auth/refresh" None (Some token) None w)
    as [[v|[e|o a]] w1] eqn:Hsend; simpl.
  - left. destruct v; reflexivity.
  - right. exists e. split; reflexivity.
  - left. reflexivity.
Qed.

End OneCall.

Lemma sent_after_send (self : SystemeCalculClient) (method endpoint : string)
    (data : option json) (token : option string) (params : option json) (w : World) :
  sent (snd (_make_request self method endpoint data token params w))
  = if truthy_str (base_url self)
    then (sent w ++ [request_of self method endpoint data token params])%list
    else sent w.
Proof.
  rewrite make_request_world_eq. destruct (truthy_str (base_url self)); reflexivity.
Qed.

Lemma log_after_send (self : SystemeCalculClient) (method endpoint : string)
    (data : option json) (token : option string) (params : option json) (w : World) :
  log (snd (_make_request self method endpoint data token params w)) = log w.
Proof.
  rewrite make_request_world_eq. destruct (truthy_str (base_url self)); reflexivity.
Qed.

Lemma store_after_send (self : SystemeCalculClient) (method endpoint : string)
    (data : option json) (token : option string) (params : option json) (w : World) :
  store (snd (_make_request self method endpoint data token params w)) = store w.
Proof.
  rewrite make_request_world_eq. destruct (truthy_str (base_url self)); reflexivity.
Qed.

(** X3: what each operation sends.  A call sends one request, the one
    of its endpoint, when a base URL is configured (and, for
    [authenticate_student], an API key; and, for [get_student_profile],
    when the cache has no truthy live value for the token), and sends
    nothing otherwise; no call ever sends two. *)
Theorem operations_send_one_request :
  forall (self : SystemeCalculClient) (w : World),
    (forall email password,
        sent (snd (authenticate_student self email password w))
        = if truthy_str (api_key self) && truthy_str (base_url self)
          then (sent w ++ [login_request self email password])%list
          else sent w)
    /\ (forall token,
           sent (snd (get_student_profile self token w))
           = if negb (truthy (cache.live_value (cache_key_of token) w))
                && truthy_str (base_url self)
             then (sent w ++ [profile_request self token])%list
             else sent w)
    /\ (forall student_id token,
           sent (snd (get_student_formations self student_id token w))
           = if truthy_str (base_url self)
             then (sent w ++ [formations_request self student_id token])%list
             else sent w)
    /\ (forall student_id token,
           sent (snd (get_student_schedule self student_id token w))
           = if truthy_str (base_url self)
             then (sent w ++ [schedule_request self student_id token])%list
             else sent w)
    /\ (forall token,
           sent (snd (verify_token self token w))
           = if truthy_str (base_url self)
             then (sent w ++ [verify_request self token])%list
             else sent w)
    /\ (forall token,
           sent (snd (refresh_token self token w))
           = if truthy_str (base_url self)
             then (sent w ++ [refresh_request self token])%list
             else sent w).
Proof.
  intros self w. repeat split.
  - intros email password. destruct (truthy_str (api_key self)) eqn:Hkey; simpl.
    + destruct (login_world self w email password Hkey) as [-> | (e & _ & ->)];
        apply sent_after_send.
    + unfold authenticate_student. rewrite Hkey. reflexivity.
  - intros token.
    destruct (truthy (cache.live_value (cache_key_of token) w)) eqn:Hhit; simpl.
    + rewrite (profile_hit self token w Hhit). reflexivity.
    + destruct (profile_world self w token Hhit)
        as [(v & _ & ->) | [(e & _ & ->) | (o & a & _ & ->)]]; apply sent_after_send.
  - intros student_id token.
    destruct (formations_world self w student_id token) as [-> | (e & _ & ->)];
      apply sent_after_send.
  - intros student_id token.
    destruct (schedule_world self w student_id token) as [-> | (e & _ & ->)];
      apply sent_after_send.
  - intros token. rewrite verify_world. apply sent_after_send.
  - intros token.
    destruct (refresh_world self w token) as [-> | (e & _ & ->)]; apply sent_after_send.
Qed.

(** X4: only [get_student_profile] ever calls the cache.  The other
    five operations leave the store exactly as it is, whatever the
    outcome of their call. *)
Theorem cache_written_by_profile_only :
  forall (self : SystemeCalculClient) (w : World),
    (forall email password, store (snd (authenticate_student self email password w)) = store w)
    /\ (forall student_id token,
           store (snd (get_student_formations self student_id token w)) = store w)
    /\ (forall student_id token,
           store (snd (get_student_schedule self student_id token w)) = store w)
    /\ (forall token, store (snd (verify_token self token w)) = store w)
    /\ (forall token, store (snd (refresh_token self token w)) = store w).
Proof.
  intros self w. repeat split.
  - intros email password. destruct (truthy_str (api_key self)) eqn:Hkey.
    + destruct (login_world self w email password Hkey) as [-> | (e & _ & ->)];
        apply store_after_send.
    + unfold authenticate_student. rewrite Hkey. reflexivity.
  - intros student_id token.
    destruct (formations_world self w student_id token) as [-> | (e & _ & ->)];
      apply store_after_send.
  - intros student_id token.
    destruct (schedule_world self w student_id token) as [-> | (e & _ & ->)];
      apply store_after_send.
  - intros token. rewrite verify_world. apply store_after_send.
  - intros token.
    destruct (refresh_world self w token) as [-> | (e & _ & ->)]; apply store_after_send.
Qed.

(** X5: what each operation logs.  [verify_token] never logs.  Each of
    the other operations appends exactly one [ERROR] record, its own
    failure record with [e.message], when its call of [_make_request]
    raised a [SystemeCalculAPIError] [e], and logs nothing in every
    other case (success, a cache hit, a missing API key, or another
    exception passing through). *)
Theorem operations_log_failures_once :
  forall (self : SystemeCalculClient) (w : World),
    (forall token, log (snd (verify_token self token w)) = log w)
    /\ (forall email password,
           log (snd (authenticate_student self email password w))
           = if truthy_str (api_key self)
             then log_after (login_failed email) (fst (send_login self email password w)) w
             else log w)
    /\ (forall token,
           log (snd (get_student_profile self token w))
           = if truthy (cache.live_value (cache_key_of token) w)
             then log w
             else log_after profile_failed (fst (send_profile self token w)) w)
    /\ (forall student_id token,
           log (snd (get_student_formations self student_id token w))
           = log_after (formations_failed student_id)
               (fst (send_formations self student_id token w)) w)
    /\ (forall student_id token,
           log (snd (get_student_schedule self student_id token w))
           = log_after (schedule_failed student_id)
               (fst (send_schedule self student_id token w)) w)
    /\ (forall token,
           log (snd (refresh_token self token w))
           = log_after refresh_failed (fst (send_refresh self token w)) w)
    /\ (forall email student_id e,
           logging.levelname (login_failed email e) = logging.ERROR
           /\ logging.levelname (profile_failed e) = logging.ERROR
           /\ logging.levelname (formations_failed student_id e) = logging.ERROR
           /\ logging.levelname (schedule_failed student_id e) = logging.ERROR
           /\ logging.levelname (refresh_failed e) = logging.ERROR).
Proof.
  intros self w. split; [|split; [|split; [|split; [|split; [|split]]]]].
  - intros token. rewrite verify_world. apply log_after_send.
  - intros email password. destruct (truthy_str (api_key self)) eqn:Hkey.
    + pose proof (log_after_send self "POST" "/auth/external-login"
                    (Some (login_data self email password)) None None w) as Hlog.
      fold (send_login self email password) in Hlog.
      destruct (send_login self email password w) as [[v|[e|o a]] w1] eqn:Hsend;
        simpl in *.
      * assert (Hcase : (exists d, v = JDict d) \/ (forall d, v <> JDict d))
          by (destruct v; eauto; right; intros d'; discriminate).
        destruct Hcase as [[d ->] | Hno].
        -- rewrite (authenticate_succeeded self w w1 email password d Hkey Hsend).
           exact Hlog.
        -- rewrite (authenticate_no_dict self w w1 email password v Hkey Hsend Hno).
           exact Hlog.
      * rewrite (authenticate_failed self w w1 email password e Hkey Hsend).
        simpl. rewrite Hlog. reflexivity.
      * rewrite (authenticate_attribute_error self w w1 email password o a Hkey Hsend).
        exact Hlog.
    + unfold authenticate_student. rewrite Hkey. reflexivity.
  - intros token. destruct (truthy (cache.live_value (cache_key_of token) w)) eqn:Hhit.
    + rewrite (profile_hit self token w Hhit). reflexivity.
    + pose proof (log_after_send self "GET" "/students/me/profile" None (Some token) None w)
        as Hlog.
      fold (send_profile self token) in Hlog.
      destruct (profile_world self w token Hhit)
        as [(v & Hs & ->) | [(e & Hs & ->) | (o & a & Hs & ->)]];
        rewrite Hs in *; simpl in *; rewrite Hlog; reflexivity.
  - intros student_id token.
    pose proof (log_after_send self "GET" ("/students/" +:+ str_of_int student_id +:+ "/formations")
                  None (Some token) None w) as Hlog.
    fold (send_formations self student_id token) in Hlog.
    unfold get_student_formations. fold (send_formations self student_id token).
    rewrite try_except_bind.
    destruct (send_formations self student_id token w) as [[v|[e|o a]] w1]; simpl in *;
      rewrite Hlog; reflexivity.
  - intros student_id token.
    pose proof (log_after_send self "GET" ("/students/" +:+ str_of_int student_id +:+ "/schedule")
                  None (Some token) None w) as Hlog.
    fold (send_schedule self student_id token) in Hlog.
    unfold get_student_schedule. fold (send_schedule self student_id token).
    rewrite try_except_bind.
    destruct (send_schedule self student_id token w) as [[v|[e|o a]] w1]; simpl in *;
      rewrite Hlog; reflexivity.
  - intros token.
    pose proof (log_after_send self "POST" "/auth/refresh" None (Some token) None w) as Hlog.
    fold (send_refresh self token) in Hlog.
    unfold refresh_token. fold (send_refresh self token).
    rewrite try_except_bind.
    destruct (send_refresh self token w) as [[v|[e|o a]] w1]; simpl in *.
    + destruct v; simpl; exact Hlog.
    + rewrite Hlog. reflexivity.
    + exact Hlog.
  - intros. repeat split.
Qed.

(** *** Where the results of the transport step come from *)

Lemma make_request_return_inv (self : SystemeCalculClient) (method endpoint : string)
    (data : option json) (token : option string) (params : option json) (w w1 : World)
    (v : json) :
  _make_request self method endpoint data token params w = (Return v, w1) ->
  truthy_str (base_url self) = true
  /\ exists r : requests.Response,
      requests.result (remote w (request_of self method endpoint data token params))
        = requests.Responded r
      /\ requests.ok r = true /\ v = parsed_body r.
Proof.
  intros Hsend.
  destruct (truthy_str (base_url self)) eqn:Hurl;
    [|rewrite make_request_no_url in Hsend by exact Hurl; discriminate].
  split; [reflexivity|].
  destruct (requests.result (remote w (request_of self method endpoint data token params)))
    as [r| | |detail] eqn:Hres.
  - destruct (requests.ok r) eqn:Hok.
    + rewrite (make_request_ok self method endpoint data params token w Hurl r Hres Hok)
        in Hsend.
      inversion Hsend. eauto.
    + exfalso.
      assert (Hcase : (exists d, parsed_body r = JDict d)
                      \/ (forall d, parsed_body r <> JDict d))
        by (destruct (parsed_body r); eauto; right; intros d'; discriminate).
      destruct Hcase as [[d Hd] | Hno].
      * rewrite (make_request_not_ok self method endpoint data params token w Hurl r d
                   Hres Hok Hd) in Hsend. discriminate.
      * rewrite (make_request_not_ok_no_dict self method endpoint data params token w Hurl r
                   Hres Hok Hno) in Hsend. discriminate.
  - rewrite (make_request_timeout self method endpoint data params token w Hurl Hres) in Hsend.
    discriminate.
  - rewrite (make_request_connection_error self method endpoint data params token w Hurl Hres)
      in Hsend. discriminate.
  - rewrite (make_request_other self method endpoint data params token w Hurl detail Hres)
      in Hsend. discriminate.
Qed.

(** X6: the error taxonomy.  Every [SystemeCalculAPIError] that
    [_make_request] raises is of one of five kinds: no base URL
    configured (and then nothing was sent), a timeout, a connection
    error, another transport fault, or a response that is not ok with a
    dict as parsed body.  It carries a status code and the response
    body exactly in the last case; in the other four the message is a
    fixed text (with the fault's detail for the catch-all). *)
Theorem api_error_kinds :
  forall (self : SystemeCalculClient) (method endpoint : string)
         (data : option json) (token : option string) (params : option json)
         (w w1 : World) (e : api_error),
    _make_request self method endpoint data token params w
      = (Raise (SystemeCalculAPIError e), w1) ->
    ((truthy_str (base_url self) = false /\ e = url_not_configured /\ w1 = w)
     \/ (truthy_str (base_url self) = true
         /\ w1 = answered (request_of self method endpoint data token params) w
         /\ (let res := requests.result
                          (remote w (request_of self method endpoint data token params)) in
             (res = requests.Timeout /\ e = timeout_error)
             \/ (res = requests.ConnectionError /\ e = connection_error)
             \/ (exists detail, res = requests.RequestException detail
                                /\ e = request_failed_error detail)
             \/ (exists r d, res = requests.Responded r /\ requests.ok r = false
                             /\ parsed_body r = JDict d /\ e = http_error r d))))
    /\ (status_code e = None <-> response_data e = None)
    /\ (status_code e = None <->
        forall r, requests.result
                    (remote w (request_of self method endpoint data token params))
                  = requests.Responded r ->
                  truthy_str (base_url self) = false).
Proof.
  intros self method endpoint data token params w w1 e Hsend.
  assert (Hkinds :
    (truthy_str (base_url self) = false /\ e = url_not_configured /\ w1 = w)
    \/ (truthy_str (base_url self) = true
        /\ w1 = answered (request_of self method endpoint data token params) w
        /\ (let res := requests.result
                         (remote w (request_of self method endpoint data token params)) in
            (res = requests.Timeout /\ e = timeout_error)
            \/ (res = requests.ConnectionError /\ e = connection_error)
            \/ (exists detail, res = requests.RequestException detail
                               /\ e = request_failed_error detail)
            \/ (exists r d, res = requests.Responded r /\ requests.ok r = false
                            /\ parsed_body r = JDict d /\ e = http_error r d)))).
  { destruct (truthy_str (base_url self)) eqn:Hurl.
    - right. split; [reflexivity|].
      pose proof (make_request_world self method endpoint data params token w Hurl) as Hw.
      rewrite Hsend in Hw. simpl in Hw. split; [exact Hw|]. simpl.
      destruct (requests.result (remote w (request_of self method endpoint data token params)))
        as [r| | |detail] eqn:Hres.
      + destruct (requests.ok r) eqn:Hok.
        * rewrite (make_request_ok self method endpoint data params token w Hurl r Hres Hok)
            in Hsend. discriminate.
        * assert (Hcase : (exists d, parsed_body r = JDict d)
                          \/ (forall d, parsed_body r <> JDict d))
            by (destruct (parsed_body r); eauto; right; intros d'; discriminate).
          destruct Hcase as [[d Hd] | Hno].
          -- rewrite (make_request_not_ok self method endpoint data params token w Hurl r d
                        Hres Hok Hd) in Hsend.
             inversion Hsend. right; right; right. exists r, d. auto.
          -- rewrite (make_request_not_ok_no_dict self method endpoint data params token w
                        Hurl r Hres Hok Hno) in Hsend. discriminate.
      + rewrite (make_request_timeout self method endpoint data params token w Hurl Hres)
          in Hsend. inversion Hsend. left. auto.
      + rewrite (make_request_connection_error self method endpoint data params token w
                   Hurl Hres) in Hsend. inversion Hsend. right; left. auto.
      + rewrite (make_request_other self method endpoint data params token w Hurl detail Hres)
          in Hsend. inversion Hsend. right; right; left. exists detail. auto.
    - left. rewrite make_request_no_url in Hsend by exact Hurl.
      inversion Hsend. auto. }
  split; [exact Hkinds|].
  destruct Hkinds as [(Hurl & -> & _) | (Hurl & _ & Hres)].
  - simpl. split; [tauto|]. split; [intros _ r _; exact Hurl|reflexivity].
  - simpl in Hres.
    destruct Hres as [[Hres ->] | [[Hres ->] | [(detail & Hres & ->) | (r & d & Hres & _ & _ & ->)]]];
      simpl; (split; [split; intros; (reflexivity || discriminate)|]);
      split; intros H; try reflexivity; try discriminate.
    + intros r Hr. rewrite Hres in Hr. discriminate.
    + intros r Hr. rewrite Hres in Hr. discriminate.
    + intros r Hr. rewrite Hres in Hr. discriminate.
    + specialize (H r Hres). rewrite Hurl in H. discriminate.
Qed.

Lemma api_error_kinds_witness :
  _make_request configured "GET" "/auth/me" None (Some "tok") None
    (fresh 0 (always 1 (json_response 403 (JDict [("error", JStr "forbidden")]))))
  = (Raise (SystemeCalculAPIError
              {| message := JStr "forbidden"; status_code := Some 403;
                 response_data := Some (JDict [("error", JStr "forbidden")]) |}),
     answered (request_of configured "GET" "/auth/me" None (Some "tok") None)
       (fresh 0 (always 1 (json_response 403 (JDict [("error", JStr "forbidden")])))))
  /\ (Some 403 = None <-> Some (JDict [("error", JStr "forbidden")]) = None).
Proof.
  split; [reflexivity|].
  apply (proj1 (proj2 (api_error_kinds configured "GET" "/auth/me" None (Some "tok") None
                         (fresh 0 (always 1 (json_response 403
                                               (JDict [("error", JStr "forbidden")]))))
                         _ {| message := JStr "forbidden"; status_code := Some 403;
                              response_data := Some (JDict [("error", JStr "forbidden")]) |}
                         eq_refl))).
Defined.

(** *** verify_token as a predicate *)

(** X7: [verify_token] returns [True] exactly when a base URL is
    configured and the remote side answers the request with a response
    that is ok (whatever its body), and returns [False] exactly when
    [_make_request] raises a [SystemeCalculAPIError]. *)
Theorem verify_token_true_iff :
  forall (self : SystemeCalculClient) (token : string) (w : World),
    (fst (verify_token self token w) = Return true
     <-> truthy_str (base_url self) = true
         /\ exists r, requests.result (remote w (verify_request self token))
                      = requests.Responded r
                      /\ requests.ok r = true)
    /\ (fst (verify_token self token w) = Return false
        <-> exists e w1, send_verify self token w = (Raise (SystemeCalculAPIError e), w1)).
Proof.
  intros self token w. split; split.
  - intros Hv.
    destruct (send_verify self token w) as [[v|[e|o a]] w1] eqn:Hsend.
    + apply make_request_return_inv in Hsend.
      destruct Hsend as (Hurl & r & Hres & Hok & _). eauto.
    + rewrite (verify_failed self w w1 token e Hsend) in Hv. discriminate.
    + unfold verify_token in Hv. rewrite try_except_bind in Hv.
      unfold send_verify in Hsend. rewrite Hsend in Hv. discriminate.
  - intros (Hurl & r & Hres & Hok).
    erewrite verify_succeeded; [reflexivity|].
    apply make_request_ok; eassumption.
  - intros Hv.
    destruct (send_verify self token w) as [[v|[e|o a]] w1] eqn:Hsend.
    + rewrite (verify_succeeded self w w1 token v Hsend) in Hv. discriminate.
    + eauto.
    + unfold verify_token in Hv. rewrite try_except_bind in Hv.
      unfold send_verify in Hsend. rewrite Hsend in Hv. discriminate.
  - intros (e & w1 & Hsend). rewrite (verify_failed self w w1 token e Hsend). reflexivity.
Qed.

Lemma verify_token_true_iff_witness :
  truthy_str (base_url configured) = true
  /\ requests.ok {| requests.status_code := 204; requests.text := "";
                    requests.json_body := None |} = true
  /\ fst (verify_token configured "tok"
            (fresh 0 (always 1 (requests.Responded (text_response 204 ""))))) = Return true.
Proof.
  split; [reflexivity|]. split; [reflexivity|].
  apply (proj1 (verify_token_true_iff configured "tok"
                  (fresh 0 (always 1 (requests.Responded (text_response 204 "")))))).
  split; [reflexivity|]. exists (text_response 204 ""). split; reflexivity.
Defined.

(** *** Headers *)

(** X8: every request [_make_request] sends has the two JSON headers,
    and it has an [Authorization] header exactly when a non-empty
    token was passed, with the value ["Bearer <token>"]; with no token
    or an empty one, no [Authorization] header is sent. *)
Theorem request_authorization_header :
  forall (self : SystemeCalculClient) (method endpoint : string)
         (data : option json) (token : option string) (params : option json),
    let req := request_of self method endpoint data token params in
    In ("Content-Type", "application/json") (requests.headers req)
    /\ In ("Accept", "application/json") (requests.headers req)
    /\ (forall value : string,
           In ("Authorization", value) (requests.headers req)
           <-> exists t, token = Some t /\ t <> "" /\ value = "Bearer " +:+ t)
    /\ forall w, truthy_str (base_url self) = true ->
                 sent (snd (_make_request self method endpoint data token params w))
                 = (sent w ++ [req])%list.
Proof.
  intros self method endpoint data token params req. subst req. simpl.
  unfold request_headers.
  destruct token as [t|]; simpl.
  - destruct (String.eqb t "") eqn:Ht; simpl.
    + apply String.eqb_eq in Ht. subst t.
      split; [auto|]. split; [auto|]. split.
      * intros value. split.
        -- intros [H|[H|[]]]; discriminate.
        -- intros (t & Ht & Hne & _). inversion Ht. subst. contradiction.
      * intros w Hurl. rewrite sent_after_send, Hurl. reflexivity.
    + apply String.eqb_neq in Ht.
      split; [auto|]. split; [auto|]. split.
      * intros value. split.
        -- intros [H|[H|[H|[]]]]; try discriminate.
           inversion H. exists t. auto.
        -- intros (t' & Ht' & _ & ->). inversion Ht'. subst. auto.
      * intros w Hurl. rewrite sent_after_send, Hurl. reflexivity.
  - split; [auto|]. split; [auto|]. split.
    + intros value. split.
      * intros [H|[H|[]]]; discriminate.
      * intros (t & Ht & _). discriminate.
    + intros w Hurl. rewrite sent_after_send, Hurl. reflexivity.
Qed.

Lemma request_authorization_header_witness :
  truthy_str (base_url configured) = true
  /\ sent (snd (_make_request configured "GET" "/auth/me" None (Some "") None
                  (fresh 0 (always 1 requests.Timeout))))
     = ([] ++ [request_of configured "GET" "/auth/me" None (Some "") None])%list.
Proof.
  split; [reflexivity|].
  apply (request_authorization_header configured "GET" "/auth/me" None (Some "") None).
  reflexivity.
Defined.

(** *** Bodies that are no JSON *)

(** X9: a response whose body is no JSON is read as [{'raw': text}].
    When it is ok, [_make_request] returns that envelope, and
    [authenticate_student] then reports [success: True] with [student]
    and [token] both [None] and [expires_in] ['24h'].  When it is not
    ok, the error message is ["HTTP <status>"], never an
    [AttributeError], and [authenticate_student] returns it as
    [error]. *)
Theorem non_json_body :
  forall (self : SystemeCalculClient) (w : World) (status : Z) (body : string),
    truthy_str (base_url self) = true ->
    (forall (method endpoint : string) (data : option json) (token : option string)
            (params : option json),
        requests.result (remote w (request_of self method endpoint data token params))
          = requests.Responded (text_response status body) ->
        fst (_make_request self method endpoint data token params w)
        = if requests.ok (text_response status body)
          then Return (JDict [("raw", JStr body)])
          else Raise (SystemeCalculAPIError
                        {| message := JStr ("HTTP " +:+ str_of_int status);
                           status_code := Some status;
                           response_data := Some (JDict [("raw", JStr body)]) |}))
    /\ (forall email password,
           truthy_str (api_key self) = true ->
           requests.result (remote w (login_request self email password))
             = requests.Responded (text_response status body) ->
           fst (authenticate_student self email password w)
           = if requests.ok (text_response status body)
             then Return (JDict [("success", JBool true); ("student", JNull);
                                 ("token", JNull); ("expires_in", JStr "24h")])
             else Return (JDict [("success", JBool false);
                                 ("error", JStr ("HTTP " +:+ str_of_int status))])).
Proof.
  intros self w status body Hurl.
  assert (Hsend : forall method endpoint data token params,
    requests.result (remote w (request_of self method endpoint data token params))
      = requests.Responded (text_response status body) ->
    _make_request self method endpoint data token params w
    = (if requests.ok (text_response status body)
       then Return (JDict [("raw", JStr body)])
       else Raise (SystemeCalculAPIError
                     {| message := JStr ("HTTP " +:+ str_of_int status);
                        status_code := Some status;
                        response_data := Some (JDict [("raw", JStr body)]) |}),
       answered (request_of self method endpoint data token params) w)).
  { intros method endpoint data token params Hres.
    destruct (requests.ok (text_response status body)) eqn:Hok.
    - rewrite (make_request_ok self method endpoint data params token w Hurl _ Hres Hok).
      reflexivity.
    - rewrite (make_request_not_ok self method endpoint data params token w Hurl _
                 [("raw", JStr body)] Hres Hok eq_refl).
      reflexivity. }
  split.
  - intros method endpoint data token params Hres. rewrite (Hsend _ _ _ _ _ Hres). reflexivity.
  - intros email password Hkey Hres. specialize (Hsend _ _ _ _ _ Hres).
    fold (send_login self email password) in Hsend.
    destruct (requests.ok (text_response status body)).
    + rewrite (authenticate_succeeded self w _ email password _ Hkey Hsend). reflexivity.
    + rewrite (authenticate_failed self w _ email password _ Hkey Hsend). reflexivity.
Qed.

Lemma non_json_body_witness :
  truthy_str (base_url configured) = true
  /\ truthy_str (api_key configured) = true
  /\ fst (authenticate_student configured "a@b.com" "pw"
            (fresh 0 (always 1 (requests.Responded (text_response 200 "<html>OK</html>")))))
     = Return (JDict [("success", JBool true); ("student", JNull);
                      ("token", JNull); ("expires_in", JStr "24h")])
  /\ fst (authenticate_student configured "a@b.com" "pw"
            (fresh 0 (always 1 (requests.Responded (text_response 502 "Bad Gateway")))))
     = Return (JDict [("success", JBool false); ("error", JStr "HTTP 502")]).
Proof.
  split; [reflexivity|]. split; [reflexivity|]. split.
  - apply (proj2 (non_json_body configured
                    (fresh 0 (always 1 (requests.Responded
                                          (text_response 200 "<html>OK</html>"))))
                    200 "<html>OK</html>" eq_refl) "a@b.com" "pw"); reflexivity.
  - apply (proj2 (non_json_body configured
                    (fresh 0 (always 1 (requests.Responded (text_response 502 "Bad Gateway"))))
                    502 "Bad Gateway" eq_refl) "a@b.com" "pw"); reflexivity.
Defined.

(** *** A client without base URL *)

(** X10: with no base URL configured, [authenticate_student] (given an
    API key), [get_student_profile] (given nothing to serve from the
    cache), [get_student_formations] and [get_student_schedule] each
    return their failure value with the message
    "API URL not configured", log that failure, and send nothing. *)
Theorem operations_without_base_url :
  forall (self : SystemeCalculClient) (w : World),
    truthy_str (base_url self) = false ->
    (forall email password,
        truthy_str (api_key self) = true ->
        authenticate_student self email password w
        = (Return (JDict [("success", JBool false);
                          ("error", JStr "API URL not configured")]),
           logged (login_failed email url_not_configured) w))
    /\ (forall token,
           truthy (cache.live_value (cache_key_of token) w) = false ->
           get_student_profile self token w
           = (Return (JDict [("success", JBool false);
                             ("error", JStr "API URL not configured")]),
              logged (profile_failed url_not_configured) w))
    /\ (forall student_id token,
           get_student_formations self student_id token w
           = (Return (JDict [("success", JBool false);
                             ("error", JStr "API URL not configured");
                             ("formations", JList [])]),
              logged (formations_failed student_id url_not_configured) w))
    /\ (forall student_id token,
           get_student_schedule self student_id token w
           = (Return (JDict [("success", JBool false);
                             ("error", JStr "API URL not configured");
                             ("schedule", JList [])]),
              logged (schedule_failed student_id url_not_configured) w)).
Proof.
  intros self w Hurl. repeat split.
  - intros email password Hkey.
    apply (authenticate_failed self w w email password url_not_configured Hkey).
    apply make_request_no_url. exact Hurl.
  - intros token Hmiss.
    apply (profile_failed_result self token w w Hmiss url_not_configured).
    apply make_request_no_url. exact Hurl.
  - intros student_id token.
    apply (formations_failed_result self w w student_id token url_not_configured).
    apply make_request_no_url. exact Hurl.
  - intros student_id token.
    apply (schedule_failed_result self w w student_id token url_not_configured).
    apply make_request_no_url. exact Hurl.
Qed.

Lemma operations_without_base_url_witness :
  truthy_str (base_url no_base_url) = false
  /\ get_student_formations no_base_url 7 "tok" (fresh 0 (always 1 requests.Timeout))
     = (Return (JDict [("success", JBool false);
                       ("error", JStr "API URL not configured");
                       ("formations", JList [])]),
        logged (formations_failed 7 url_not_configured)
          (fresh 0 (always 1 requests.Timeout))).
Proof.
  split; [reflexivity|].
  apply (operations_without_base_url no_base_url (fresh 0 (always 1 requests.Timeout))).
  reflexivity.
Defined.

(** *** The cache over time *)

Lemma profile_sent (self : SystemeCalculClient) (token : string) (w : World) :
  sent (snd (get_student_profile self token w))
  = if negb (truthy (cache.live_value (cache_key_of token) w)) && truthy_str (base_url self)
    then (sent w ++ [profile_request self token])%list
    else sent w.
Proof.
  destruct (truthy (cache.live_value (cache_key_of token) w)) eqn:Hhit; simpl.
  - rewrite (profile_hit self token w Hhit). reflexivity.
  - destruct (profile_world self w token Hhit)
      as [(v & _ & ->) | [(e & _ & ->) | (o & a & _ & ->)]]; apply sent_after_send.
Qed.

(** X11: the entry expires.  Once 300 seconds or more have passed since
    a fetch stored a value, the cache serves nothing for the token: the
    next call sends a second request, and when that fetch returns a
    value, the value replaces the old entry for another 300 seconds and
    is what the call returns. *)
Theorem profile_refetched_after_ttl :
  forall (self : SystemeCalculClient) (token : string) (w w1 : World) (v : json) (dt : Z)
         (remote' : requests.Request -> requests.Reply),
    truthy (cache.live_value (cache_key_of token) w) = false ->
    send_profile self token w = (Return v, w1) ->
    300 <= dt ->
    get_student_profile self token w = (Return v, cache.stored (cache_key_of token) v 300 w1)
    /\ cache.live_value (cache_key_of token)
         (later dt remote' (cache.stored (cache_key_of token) v 300 w1)) = JNull
    /\ sent (snd (get_student_profile self token
                    (later dt remote' (cache.stored (cache_key_of token) v 300 w1))))
       = (sent w ++ [profile_request self token; profile_request self token])%list
    /\ forall (v2 : json) (w3 : World),
        send_profile self token (later dt remote' (cache.stored (cache_key_of token) v 300 w1))
          = (Return v2, w3) ->
        get_student_profile self token
          (later dt remote' (cache.stored (cache_key_of token) v 300 w1))
        = (Return v2, cache.stored (cache_key_of token) v2 300 w3)
        /\ store (cache.stored (cache_key_of token) v2 300 w3) !! cache_key_of token
           = Some (v2, now w3 + 300).
Proof.
  intros self token w w1 v dt remote' Hmiss Hsend Hdt.
  pose proof (live_value_expired (cache_key_of token) v dt remote' w1 Hdt) as Hexp.
  split; [apply profile_fetched; assumption|]. split; [exact Hexp|]. split.
  - rewrite profile_sent, Hexp. simpl.
    unfold send_profile in Hsend.
    destruct (make_request_return_inv _ _ _ _ _ _ _ _ _ Hsend) as (Hurl & _).
    apply make_request_returned in Hsend. subst w1. rewrite Hurl. simpl.
    rewrite <- app_assoc. reflexivity.
  - intros v2 w3 Hsend2. split.
    + apply profile_fetched; [rewrite Hexp; reflexivity|exact Hsend2].
    + simpl. apply lookup_insert_eq.
Qed.

Lemma profile_refetched_after_ttl_witness :
  truthy (cache.live_value (cache_key_of "tok")
            (fresh 0 (profile_is (JDict [("name", JStr "old")])))) = false
  /\ 300 <= 300
  /\ length (sent (snd (get_student_profile configured "tok"
                          (later 300 (profile_is (JDict [("name", JStr "new")]))
                             (cache.stored (cache_key_of "tok") (JDict [("name", JStr "old")]) 300
                                (answered (profile_request configured "tok")
                                   (fresh 0 (profile_is (JDict [("name", JStr "old")])))))))))
     = 2%nat.
Proof.
  split; [reflexivity|]. split; [lia|].
  rewrite (proj1 (proj2 (proj2 (profile_refetched_after_ttl configured "tok"
             (fresh 0 (profile_is (JDict [("name", JStr "old")])))
             (answered (profile_request configured "tok")
                (fresh 0 (profile_is (JDict [("name", JStr "old")]))))
             (JDict [("name", JStr "old")]) 300 (profile_is (JDict [("name", JStr "new")]))
             eq_refl eq_refl ltac:(lia))))).
  reflexivity.
Defined.

(** X12: failures are not remembered.  After a call whose fetch raised
    a [SystemeCalculAPIError], the next call with the same token, at any
    later time, finds nothing to serve in the cache and sends the
    request again. *)
Theorem failed_fetch_is_retried :
  forall (self : SystemeCalculClient) (token : string) (w w1 : World) (e : api_error) (dt : Z)
         (remote' : requests.Request -> requests.Reply),
    truthy (cache.live_value (cache_key_of token) w) = false ->
    send_profile self token w = (Raise (SystemeCalculAPIError e), w1) ->
    truthy_str (base_url self) = true ->
    now w <= now w1 + dt ->
    truthy (cache.live_value (cache_key_of token)
              (later dt remote' (snd (get_student_profile self token w)))) = false
    /\ sent (snd (get_student_profile self token
                    (later dt remote' (snd (get_student_profile self token w)))))
       = (sent w ++ [profile_request self token; profile_request self token])%list.
Proof.
  intros self token w w1 e dt remote' Hmiss Hsend Hurl Hnow.
  rewrite (profile_failed_result self token w w1 Hmiss e Hsend). simpl snd.
  pose proof (make_request_world self "GET" "/students/me/profile" None None (Some token) w Hurl)
    as Hw.
  fold (send_profile self token) in Hw. rewrite Hsend in Hw. simpl in Hw.
  assert (Hmiss' : truthy (cache.live_value (cache_key_of token)
                             (later dt remote' (logged (profile_failed e) w1))) = false).
  { unfold cache.live_value in *. simpl.
    assert (Hstore : store w1 = store w) by (rewrite Hw; reflexivity).
    rewrite Hstore.
    destruct (store w !! cache_key_of token) as [[v expiry]|]; [|reflexivity].
    destruct (now w1 + dt <? expiry) eqn:Hlive; [|reflexivity].
    apply Z.ltb_lt in Hlive.
    assert (Hlive0 : (now w <? expiry) = true) by (apply Z.ltb_lt; lia).
    rewrite Hlive0 in Hmiss. exact Hmiss. }
  split; [exact Hmiss'|].
  rewrite profile_sent, Hmiss', Hurl. simpl. rewrite Hw. simpl.
  rewrite <- app_assoc. reflexivity.
Qed.

Lemma failed_fetch_is_retried_witness :
  truthy (cache.live_value (cache_key_of "tok") (fresh 0 (always 30 requests.Timeout))) = false
  /\ truthy_str (base_url configured) = true
  /\ 0 <= 30 + 5
  /\ length (sent (snd (get_student_profile configured "tok"
                          (later 5 (always 30 requests.Timeout)
                             (snd (get_student_profile configured "tok"
                                     (fresh 0 (always 30 requests.Timeout)))))))) = 2%nat.
Proof.
  split; [reflexivity|]. split; [reflexivity|]. split; [lia|].
  rewrite (proj2 (failed_fetch_is_retried configured "tok"
                    (fresh 0 (always 30 requests.Timeout))
                    (answered (profile_request configured "tok")
                       (fresh 0 (always 30 requests.Timeout)))
                    timeout_error 5 (always 30 requests.Timeout)
                    eq_refl eq_refl eq_refl ltac:(simpl; lia))).
  reflexivity.
Defined.

(** *** One endpoint per student *)

Lemma str_of_int_inj (n m : Z) : str_of_int n = str_of_int m -> n = m.
Proof.
  unfold str_of_int. intros H.
  assert (Hparse : forall z, NilZero.int_of_string (NilZero.string_of_int (Z.to_int z))
                             = Some (Z.to_int z)).
  { intros z. apply NilZero.isi; destruct z; simpl; try discriminate;
      intros Hnil; inversion Hnil as [Hp]; exact (Unsigned.to_uint_nonnil _ Hp). }
  pose proof (Hparse n) as Hn. rewrite H, Hparse in Hn. inversion Hn as [Hint].
  rewrite <- (DecimalZ.of_to n), <- (DecimalZ.of_to m), Hint. reflexivity.
Qed.

Lemma length_append (a b : string) :
  String.length (a +:+ b) = (String.length a + String.length b)%nat.
Proof.
  induction a as [|c a IH]; [reflexivity|].
  rewrite append_String. simpl. rewrite IH. reflexivity.
Qed.

Lemma append_inj_r (a b t : string) : a +:+ t = b +:+ t -> a = b.
Proof.
  revert b. induction a as [|c a IH]; intros b H.
  - destruct b as [|c' b]; [reflexivity|].
    apply (f_equal String.length) in H. rewrite append_empty, length_append in H.
    simpl in H. lia.
  - destruct b as [|c' b].
    + apply (f_equal String.length) in H. rewrite append_empty, length_append in H.
      simpl in H. lia.
    + rewrite !append_String in H. inversion H. f_equal. auto.
Qed.

Lemma last_char_append (a t : string) :
  t <> "" -> last_char (a +:+ t) = last_char t.
Proof.
  intros Ht. induction a as [|c a IH]; [reflexivity|].
  rewrite append_String. simpl. rewrite IH.
  destruct (a +:+ t) eqn:E; [|reflexivity].
  destruct a; [rewrite append_empty in E; contradiction|].
  rewrite append_String in E. discriminate.
Qed.

Lemma last_char_append_some (a t : string) (c : ascii) :
  last_char t = Some c -> last_char (a +:+ t) = Some c.
Proof.
  intros H. rewrite last_char_append; [exact H|]. intros ->. discriminate.
Qed.

Lemma student_url (self : SystemeCalculClient) (student_id : Z) (suffix : string) :
  target_url (default "" (base_url self)) ("/students/" +:+ str_of_int student_id +:+ suffix)
  = rstrip_slash (default "" (base_url self))
      +:+ "/" +:+ "students/" +:+ str_of_int student_id +:+ suffix.
Proof. reflexivity. Qed.

(** X13: one endpoint per student and kind.  An integer is rendered in
    a way that tells integers apart, so the formations requests of two
    students have the same URL only if the ids are equal, likewise for
    the schedule requests, and a formations URL is never a schedule
    URL. *)
Theorem student_endpoints_are_distinct :
  forall (self : SystemeCalculClient) (id1 id2 : Z) (token1 token2 : string),
    (requests.url (formations_request self id1 token1)
     = requests.url (formations_request self id2 token2) -> id1 = id2)
    /\ (requests.url (schedule_request self id1 token1)
        = requests.url (schedule_request self id2 token2) -> id1 = id2)
    /\ requests.url (formations_request self id1 token1)
       <> requests.url (schedule_request self id2 token2).
Proof.
  intros self id1 id2 token1 token2. unfold formations_request, schedule_request. simpl.
  rewrite !student_url. repeat split.
  - intros H. do 3 apply append_inj_l in H. apply append_inj_r in H.
    apply str_of_int_inj. exact H.
  - intros H. do 3 apply append_inj_l in H. apply append_inj_r in H.
    apply str_of_int_inj. exact H.
  - intros H. apply (f_equal last_char) in H.
    rewrite (last_char_append_some _ _ "s") in H
      by (do 3 apply last_char_append_some; reflexivity).
    rewrite (last_char_append_some _ _ "e") in H
      by (do 3 apply last_char_append_some; reflexivity).
    discriminate.
Qed.

Lemma student_endpoints_are_distinct_witness :
  requests.url (formations_request configured 7 "a")
  = requests.url (formations_request configured 7 "b")
  /\ 7 = 7.
Proof.
  split; [reflexivity|].
  apply (proj1 (student_endpoints_are_distinct configured 7 7 "a" "b")). reflexivity.
Defined.

(** *** Result shapes of the two list operations *)

(** X14: whatever [get_student_formations] returns is either the parsed
    body of an ok response to its request, passed on as it is (a list
    as much as a dict), or the failure dict with [success] false, the
    error message, and [formations] an empty list; likewise
    [get_student_schedule] with [schedule]. *)
Theorem formations_and_schedule_results :
  forall (self : SystemeCalculClient) (student_id : Z) (token : string) (w w' : World)
         (result : json),
    (get_student_formations self student_id token w = (Return result, w') ->
     (exists r, requests.result (remote w (formations_request self student_id token))
                = requests.Responded r
                /\ requests.ok r = true /\ result = parsed_body r)
     \/ (exists m, result = JDict [("success", JBool false); ("error", m);
                                   ("formations", JList [])]))
    /\ (get_student_schedule self student_id token w = (Return result, w') ->
        (exists r, requests.result (remote w (schedule_request self student_id token))
                   = requests.Responded r
                   /\ requests.ok r = true /\ result = parsed_body r)
        \/ (exists m, result = JDict [("success", JBool false); ("error", m);
                                      ("schedule", JList [])])).
Proof.
  intros self student_id token w w' result. split.
  - unfold get_student_formations. rewrite try_except_bind.
    destruct (_make_request self "GET" ("/students/" +:+ str_of_int student_id +:+ "/formations")
                None (Some token) None w) as [[v|[e|o a]] w1] eqn:Hsend; simpl; intros H.
    + inversion H; subst. left.
      destruct (make_request_return_inv _ _ _ _ _ _ _ _ _ Hsend) as (_ & r & Hres & Hok & ->).
      eauto.
    + inversion H; subst. right. eauto.
    + discriminate.
  - unfold get_student_schedule. rewrite try_except_bind.
    destruct (_make_request self "GET" ("/students/" +:+ str_of_int student_id +:+ "/schedule")
                None (Some token) None w) as [[v|[e|o a]] w1] eqn:Hsend; simpl; intros H.
    + inversion H; subst. left.
      destruct (make_request_return_inv _ _ _ _ _ _ _ _ _ Hsend) as (_ & r & Hres & Hok & ->).
      eauto.
    + inversion H; subst. right. eauto.
    + discriminate.
Qed.

Lemma formations_and_schedule_results_witness :
  get_student_formations configured 7 "tok"
    (fresh 0 (always 1 (json_response 200 (JList [JDict [("id", JInt 1)]]))))
  = (Return (JList [JDict [("id", JInt 1)]]),
     answered (formations_request configured 7 "tok")
       (fresh 0 (always 1 (json_response 200 (JList [JDict [("id", JInt 1)]])))))
  /\ ((exists r, requests.result
                   (remote (fresh 0 (always 1 (json_response 200
                                                 (JList [JDict [("id", JInt 1)]]))))
                      (formations_request configured 7 "tok"))
                 = requests.Responded r
                 /\ requests.ok r = true /\ JList [JDict [("id", JInt 1)]] = parsed_body r)
      \/ (exists m, JList [JDict [("id", JInt 1)]]
                    = JDict [("success", JBool false); ("error", m);
                             ("formations", JList [])])).
Proof.
  split; [reflexivity|].
  apply (proj1 (formations_and_schedule_results configured 7 "tok"
                  (fresh 0 (always 1 (json_response 200 (JList [JDict [("id", JInt 1)]]))))
                  (answered (formations_request configured 7 "tok")
                     (fresh 0 (always 1 (json_response 200
                                           (JList [JDict [("id", JInt 1)]])))))
                  (JList [JDict [("id", JInt 1)]]))).
  reflexivity.
Defined.

(** *** What None from refresh_token means *)

(** X15: [refresh_token] returns [None] in two situations and no other:
    [_make_request] raised a [SystemeCalculAPIError], or it returned a
    dict whose [token] entry is missing or [None]. *)
Theorem refresh_token_none_iff :
  forall (self : SystemeCalculClient) (token : string) (w : World),
    fst (refresh_token self token w) = Return JNull
    <-> (exists e w1, send_refresh self token w = (Raise (SystemeCalculAPIError e), w1))
        \/ (exists d w1, send_refresh self token w = (Return (JDict d), w1)
                         /\ dict_get d "token" JNull = JNull).
Proof.
  intros self token w. split.
  - intros H.
    destruct (send_refresh self token w) as [[v|[e|o a]] w1] eqn:Hsend.
    + right. unfold refresh_token in H. rewrite try_except_bind in H.
      unfold send_refresh in Hsend. rewrite Hsend in H.
      destruct v as [| | | | | |d]; try discriminate. simpl in H.
      exists d, w1. split; [reflexivity|]. congruence.
    + left. eauto.
    + unfold refresh_token in H. rewrite try_except_bind in H.
      unfold send_refresh in Hsend. rewrite Hsend in H. discriminate.
  - intros [(e & w1 & Hsend) | (d & w1 & Hsend & Hd)].
    + rewrite (refresh_failed_result self w w1 token e Hsend). reflexivity.
    + rewrite (refresh_succeeded self w w1 token d Hsend). simpl. rewrite Hd. reflexivity.
Qed.

Lemma refresh_token_none_iff_witness :
  send_refresh configured "old" (fresh 0 (always 1 (json_response 200 (JDict []))))
  = (Return (JDict []),
     answered (refresh_request configured "old")
       (fresh 0 (always 1 (json_response 200 (JDict [])))))
  /\ dict_get [] "token" JNull = JNull
  /\ fst (refresh_token configured "old" (fresh 0 (always 1 (json_response 200 (JDict [])))))
     = Return JNull.
Proof.
  split; [reflexivity|]. split; [reflexivity|].
  apply (proj2 (refresh_token_none_iff configured "old"
                  (fresh 0 (always 1 (json_response 200 (JDict [])))))).
  right. exists [], (answered (refresh_request configured "old")
                       (fresh 0 (always 1 (json_response 200 (JDict []))))).
  split; reflexivity.
Defined.

(** *** Entries under different keys *)

Lemma make_request_with_store (self : SystemeCalculClient) (method endpoint : string)
    (data : option json) (token : option string) (params : option json)
    (s : gmap string (json * Z)) (w : World) :
  _make_request self method endpoint data token params (with_store s w)
  = (fst (_make_request self method endpoint data token params w),
     with_store s (snd (_make_request self method endpoint data token params w))).
Proof.
  unfold _make_request, bind, requests_request.
  destruct (truthy_str (base_url self)); simpl; [|reflexivity].
  destruct (requests.result (remote w _)) as [r| | |detail]; simpl; try reflexivity.
  destruct (requests.ok r); simpl; [reflexivity|].
  destruct (parsed_body r); reflexivity.
Qed.

(** X16: [get_student_profile] reads the cache under its own token's
    key and nowhere else.  In two worlds that differ only in the cache
    store, and whose stores hold the same entry (or none) under the
    token's key, the call returns the same result, sends the same
    requests and logs the same records: what is stored under other
    keys, for other tokens, has no influence. *)
Theorem profile_reads_own_entry_only :
  forall (self : SystemeCalculClient) (token : string) (s : gmap string (json * Z))
         (w : World),
    s !! cache_key_of token = store w !! cache_key_of token ->
    fst (get_student_profile self token (with_store s w))
    = fst (get_student_profile self token w)
    /\ sent (snd (get_student_profile self token (with_store s w)))
       = sent (snd (get_student_profile self token w))
    /\ log (snd (get_student_profile self token (with_store s w)))
       = log (snd (get_student_profile self token w)).
Proof.
  intros self token s w Hentry.
  assert (Hlive : cache.live_value (cache_key_of token) (with_store s w)
                  = cache.live_value (cache_key_of token) w).
  { unfold cache.live_value, with_store. simpl. rewrite Hentry. reflexivity. }
  destruct (truthy (cache.live_value (cache_key_of token) w)) eqn:Hhit.
  - rewrite (profile_hit self token w Hhit).
    rewrite (profile_hit self token (with_store s w)) by (rewrite Hlive; exact Hhit).
    rewrite Hlive. auto.
  - assert (Hhit' : truthy (cache.live_value (cache_key_of token) (with_store s w)) = false)
      by (rewrite Hlive; exact Hhit).
    pose proof (make_request_with_store self "GET" "/students/me/profile" None (Some token)
                  None s w) as Hsend'.
    fold (send_profile self token) in Hsend'.
    destruct (send_profile self token w) as [[v1|[e|o a]] w1] eqn:Hsend; simpl in Hsend'.
    + rewrite (profile_fetched self token w w1 Hhit v1 Hsend).
      rewrite (profile_fetched self token _ _ Hhit' v1 Hsend'). auto.
    + rewrite (profile_failed_result self token w w1 Hhit e Hsend).
      rewrite (profile_failed_result self token _ _ Hhit' e Hsend'). auto.
    + rewrite (profile_attribute_error self token w w1 Hhit o a Hsend).
      rewrite (profile_attribute_error self token _ _ Hhit' o a Hsend'). auto.
Qed.

Lemma profile_reads_own_entry_only_witness :
  store_of_another_token !! cache_key_of "tok"
  = store (fresh 0 (profile_is (JDict [("name", JStr "Ada")]))) !! cache_key_of "tok"
  /\ fst (get_student_profile configured "tok"
            (with_store store_of_another_token
               (fresh 0 (profile_is (JDict [("name", JStr "Ada")])))))
     = Return (JDict [("name", JStr "Ada")]).
Proof.
  split; [vm_compute; reflexivity|].
  rewrite (proj1 (profile_reads_own_entry_only configured "tok" store_of_another_token
                    (fresh 0 (profile_is (JDict [("name", JStr "Ada")])))
                    ltac:(vm_compute; reflexivity))).
  reflexivity.
Defined.

(** *** Construction and the singleton *)

Lemma init_result (settings : Settings) (w : World) :
  __init__ settings w
  = (Return {| base_url := SYSTEME_CALCUL_API_URL settings;
               api_key := SYSTEME_CALCUL_API_KEY settings;
               timeout := default 30 (SYSTEME_CALCUL_API_TIMEOUT settings) |},
     {| store := store w; cull := cull w; now := now w; remote := remote w; sent := sent w;
        log := (log w ++ init_warnings settings)%list |}).
Proof.
  unfold __init__, init_warnings, bind, ret, logger.warning, logger.emit. simpl.
  destruct (truthy_str (SYSTEME_CALCUL_API_URL settings));
    destruct (truthy_str (SYSTEME_CALCUL_API_KEY settings)); simpl;
    rewrite ?app_nil_r, <- ?app_assoc; destruct w; reflexivity.
Qed.

(** X17: the client is constructed once.  The first call of
    [get_api_client] never fails: it builds the client from the
    settings of that moment (timeout 30 when none is set), logs one
    warning for a missing URL and one for a missing key, sends nothing
    and keeps the instance.  Every later call returns that same
    instance, whatever the settings have become, and leaves the world
    untouched, so the warnings are logged once. *)
Theorem client_constructed_once :
  forall (settings settings' : Settings) (w w' : World),
    let instance :=
      {| base_url := SYSTEME_CALCUL_API_URL settings;
         api_key := SYSTEME_CALCUL_API_KEY settings;
         timeout := default 30 (SYSTEME_CALCUL_API_TIMEOUT settings) |} in
    fst (get_api_client settings None w) = Return (instance, Some instance)
    /\ log (snd (get_api_client settings None w)) = (log w ++ init_warnings settings)%list
    /\ length (init_warnings settings)
       = ((if truthy_str (SYSTEME_CALCUL_API_URL settings) then 0 else 1)
          + (if truthy_str (SYSTEME_CALCUL_API_KEY settings) then 0 else 1))%nat
    /\ sent (snd (get_api_client settings None w)) = sent w
    /\ store (snd (get_api_client settings None w)) = store w
    /\ get_api_client settings' (Some instance) w' = (Return (instance, Some instance), w').
Proof.
  intros settings settings' w w' instance. subst instance.
  unfold get_api_client. unfold bind at 1 2 3 4. rewrite init_result. simpl.
  repeat split.
  unfold init_warnings.
  destruct (truthy_str (SYSTEME_CALCUL_API_URL settings));
    destruct (truthy_str (SYSTEME_CALCUL_API_KEY settings)); reflexivity.
Qed.

Example get_api_client_twice :
  fst (get_api_client empty_settings None (fresh 0 (always 1 requests.Timeout)))
  = Return ({| base_url := None; api_key := None; timeout := 30 |},
            Some {| base_url := None; api_key := None; timeout := 30 |})
  /\ length (log (snd (get_api_client empty_settings None
                         (fresh 0 (always 1 requests.Timeout))))) = 2%nat
  /\ get_api_client full_settings (Some {| base_url := None; api_key := None; timeout := 30 |})
       (snd (get_api_client empty_settings None (fresh 0 (always 1 requests.Timeout))))
     = (Return ({| base_url := None; api_key := None; timeout := 30 |},
                Some {| base_url := None; api_key := None; timeout := 30 |}),
        snd (get_api_client empty_settings None (fresh 0 (always 1 requests.Timeout)))).
Proof. repeat split. Qed.

(** *** The password and the log *)

Lemma make_request_reply_only (self : SystemeCalculClient) (method endpoint : string)
    (data1 data2 : option json) (token : option string) (params : option json) (w : World) :
  remote w (request_of self method endpoint data1 token params)
  = remote w (request_of self method endpoint data2 token params) ->
  fst (_make_request self method endpoint data1 token params w)
  = fst (_make_request self method endpoint data2 token params w)
  /\ log (snd (_make_request self method endpoint data1 token params w))
     = log (snd (_make_request self method endpoint data2 token params w)).
Proof.
  intros Hreply. rewrite !log_after_send. split; [|reflexivity].
  unfold _make_request, bind, requests_request.
  destruct (truthy_str (base_url self)); simpl; [|reflexivity].
  unfold request_of in Hreply. rewrite Hreply.
  destruct (requests.result (remote w _)) as [r| | |detail]; simpl; try reflexivity.
  destruct (requests.ok r); simpl; [reflexivity|].
  destruct (parsed_body r); reflexivity.
Qed.

(** X18: the client itself never writes the password anywhere but into
    the request body.  If the remote side gives the same reply to the
    login requests for two passwords, [authenticate_student] returns
    the same result and leaves the same log for both: result and log
    depend on the password only through what the remote side
    answers. *)
Theorem password_reaches_only_the_request :
  forall (self : SystemeCalculClient) (email password1 password2 : string) (w : World),
    remote w (login_request self email password1)
    = remote w (login_request self email password2) ->
    fst (authenticate_student self email password1 w)
    = fst (authenticate_student self email password2 w)
    /\ log (snd (authenticate_student self email password1 w))
       = log (snd (authenticate_student self email password2 w))
    /\ requests.json (login_request self email password1)
       = Some (JDict [("email", JStr email); ("password", JStr password1);
                      ("app_key", JStr (default "" (api_key self)))]).
Proof.
  intros self email password1 password2 w Hreply.
  split; [|split; [|reflexivity]].
  - destruct (truthy_str (api_key self)) eqn:Hkey;
      [|unfold authenticate_student; rewrite Hkey; reflexivity].
    destruct (make_request_reply_only self "POST" "/auth/external-login"
                (Some (login_data self email password1))
                (Some (login_data self email password2)) None None w Hreply) as [Hfst _].
    fold (send_login self email password1) (send_login self email password2) in Hfst.
    destruct (send_login self email password1 w) as [[v|[e|o a]] w1] eqn:H1;
      destruct (send_login self email password2 w) as [[v'|[e'|o' a']] w2] eqn:H2;
      simpl in Hfst; try discriminate; inversion Hfst; subst.
    + assert (Hcase : (exists d, v' = JDict d) \/ (forall d, v' <> JDict d))
        by (destruct v'; eauto; right; intros d'; discriminate).
      destruct Hcase as [[d ->] | Hno].
      * rewrite (authenticate_succeeded self w w1 email password1 d Hkey H1).
        rewrite (authenticate_succeeded self w w2 email password2 d Hkey H2). reflexivity.
      * rewrite (authenticate_no_dict self w w1 email password1 v' Hkey H1 Hno).
        rewrite (authenticate_no_dict self w w2 email password2 v' Hkey H2 Hno). reflexivity.
    + rewrite (authenticate_failed self w w1 email password1 e' Hkey H1).
      rewrite (authenticate_failed self w w2 email password2 e' Hkey H2). reflexivity.
    + rewrite (authenticate_attribute_error self w w1 email password1 o' a' Hkey H1).
      rewrite (authenticate_attribute_error self w w2 email password2 o' a' Hkey H2).
      reflexivity.
  - destruct (truthy_str (api_key self)) eqn:Hkey;
      [|unfold authenticate_student; rewrite Hkey; reflexivity].
    destruct (make_request_reply_only self "POST" "/auth/external-login"
                (Some (login_data self email password1))
                (Some (login_data self email password2)) None None w Hreply) as [Hfst Hlog].
    fold (send_login self email password1) (send_login self email password2) in Hfst, Hlog.
    destruct (send_login self email password1 w) as [[v|[e|o a]] w1] eqn:H1;
      destruct (send_login self email password2 w) as [[v'|[e'|o' a']] w2] eqn:H2;
      simpl in Hfst, Hlog; try discriminate; inversion Hfst; subst.
    + assert (Hcase : (exists d, v' = JDict d) \/ (forall d, v' <> JDict d))
        by (destruct v'; eauto; right; intros d'; discriminate).
      destruct Hcase as [[d ->] | Hno].
      * rewrite (authenticate_succeeded self w w1 email password1 d Hkey H1).
        rewrite (authenticate_succeeded self w w2 email password2 d Hkey H2). exact Hlog.
      * rewrite (authenticate_no_dict self w w1 email password1 v' Hkey H1 Hno).
        rewrite (authenticate_no_dict self w w2 email password2 v' Hkey H2 Hno). exact Hlog.
    + rewrite (authenticate_failed self w w1 email password1 e' Hkey H1).
      rewrite (authenticate_failed self w w2 email password2 e' Hkey H2).
      simpl. rewrite Hlog. reflexivity.
    + rewrite (authenticate_attribute_error self w w1 email password1 o' a' Hkey H1).
      rewrite (authenticate_attribute_error self w w2 email password2 o' a' Hkey H2).
      exact Hlog.
Qed.

Lemma password_reaches_only_the_request_witness :
  remote (fresh 0 (always 1 (json_response 401 (JDict [("error", JStr "invalid credentials")]))))
    (login_request configured "a@b.com" "pw1")
  = remote (fresh 0 (always 1 (json_response 401 (JDict [("error", JStr "invalid credentials")]))))
      (login_request configured "a@b.com" "pw2")
  /\ log (snd (authenticate_student configured "a@b.com" "pw1"
                 (fresh 0 (always 1 (json_response 401
                                       (JDict [("error", JStr "invalid credentials")]))))))
     = log (snd (authenticate_student configured "a@b.com" "pw2"
                   (fresh 0 (always 1 (json_response 401
                                         (JDict [("error", JStr "invalid credentials")])))))).
Proof.
  split; [reflexivity|].
  apply (password_reaches_only_the_request configured "a@b.com" "pw1" "pw2"
           (fresh 0 (always 1 (json_response 401
                                 (JDict [("error", JStr "invalid credentials")]))))).
  reflexivity.
Defined.
